(** * Password generator: the terminal session of [password_generator.py]

    A shallow embedding of the program and the properties of its session:
    length validation, character-type toggles, pool construction and
    sampling, the history of generated passwords, the login and export
    screens, and the way the program ends.

    Conventions of the model.
    - A Python [str] is a [string]; each [ascii] is the code point of one
      character, so the model covers lines over code points 0..255.
    - A Python [int] is a [Z]; [None] for an optional integer is [None].
    - The terminal, the two microservices and the random source are the
      outside world: the lines still to be typed, the list object
      [saved_passwords] and a trace of everything that happened are threaded
      through every function; the replies of the services and the draws of
      the random source are given by an environment.
    - A run is followed as far as the typed lines go: when [input] is called
      and no line is left the run is recorded as stopped there, where a
      terminal would block and a closed stdin would raise EOFError. A
      KeyboardInterrupt can come at any moment and is not followed either. *)

From Stdlib Require Import ZArith List String Ascii Bool Lia DecimalString.
Import ListNotations.

Local Open Scope Z_scope.
Local Open Scope string_scope.

(* ================================================================== *)
(** * Python strings *)

Module PyStr.

(** "\n" *)
Definition nl : string := String (ascii_of_nat 10) "".

(** [str.isspace] for one character, on code points below 256:
    TAB..CR, FS..US, SPACE, NEL and NBSP. *)
Definition isspace (c : ascii) : bool :=
  let n := N_of_ascii c in
  (((9 <=? n) && (n <=? 13)) || ((28 <=? n) && (n <=? 32))
   || (n =? 133) || (n =? 160))%N.

Fixpoint lstrip (s : string) : string :=
  match s with
  | EmptyString => EmptyString
  | String c s' => if isspace c then lstrip s' else s
  end.

Fixpoint rstrip (s : string) : string :=
  match s with
  | EmptyString => EmptyString
  | String c s' =>
      match rstrip s' with
      | EmptyString => if isspace c then EmptyString else String c EmptyString
      | t => String c t
      end
  end.

(** [s.strip()] *)
Definition strip (s : string) : string := rstrip (lstrip s).

(** [str.lower] for one character, on code points below 256: A..Z and
    the accented capitals U+00C0..U+00DE (but not the multiplication
    sign U+00D7) move up by 32. *)
Definition lower_char (c : ascii) : ascii :=
  let n := N_of_ascii c in
  if (((65 <=? n) && (n <=? 90))
      || ((192 <=? n) && (n <=? 222) && negb (n =? 215)))%N
  then ascii_of_N (n + 32) else c.

(** [s.lower()] *)
Fixpoint lower (s : string) : string :=
  match s with
  | EmptyString => EmptyString
  | String c s' => String (lower_char c) (lower s')
  end.

(** [c in s] for a one-character [c]. *)
Fixpoint char_in (c : ascii) (s : string) : bool :=
  match s with
  | EmptyString => false
  | String d s' => if Ascii.eqb c d then true else char_in c s'
  end.

(** The value of one decimal digit character. *)
Definition digit_value (c : ascii) : Z := Z.of_N (N_of_ascii c) - 48.

Fixpoint int_acc (acc : Z) (s : string) : Z :=
  match s with
  | EmptyString => acc
  | String c s' => int_acc (10 * acc + digit_value c) s'
  end.

(** The decimal value of a string made of the characters 0..9 only,
    leading zeros allowed. *)
Definition int_value (s : string) : Z := int_acc 0 s.

(** The most digits that [int] converts (sys.int_info.default_max_str_digits). *)
Definition max_str_digits : nat := 4300.

(** [int(s)] for a non-empty [s] made of the characters 0..9 only, the
    only strings the program passes to it: its decimal value, or [None],
    for ValueError, when there are more digits than the interpreter
    converts. *)
Definition int (s : string) : option Z :=
  if (max_str_digits <? String.length s)%nat then None
  else Some (int_value s).

(** [str(n)] for an integer. *)
Definition str (n : Z) : string := NilZero.string_of_int (Z.to_int n).

(** [list(s)]: the characters of a string. *)
Definition chars (s : string) : list ascii := list_ascii_of_string s.

(** ["".join(l)] for a list of one-character strings. *)
Definition join (l : list ascii) : string := string_of_list_ascii l.

(** [string.ascii_lowercase], [string.ascii_uppercase], [string.digits] *)
Definition ascii_lowercase : string := "abcdefghijklmnopqrstuvwxyz".
Definition ascii_uppercase : string := "ABCDEFGHIJKLMNOPQRSTUVWXYZ".
Definition digits : string := "0123456789".

End PyStr.

Import PyStr.

(* ================================================================== *)
(** * The outside world *)

(** One saved record: the dict built by [save_generated_password], with a
    field per key ("password", "length", "lowercase", "uppercase",
    "numbers", "symbols"). *)
Record PasswordRecord : Type := mkRecord {
  rec_password : string;
  rec_length : Z;
  rec_lowercase : bool;
  rec_uppercase : bool;
  rec_numbers : bool;
  rec_symbols : bool
}.

(** What [requests.post] followed by [resp.json()] can give: the post
    raises; the body is not JSON; the body is null; the body is a JSON
    object, given by its items; the body is any other JSON value (an array,
    a string, a number, true or false). The program only compares the
    values of an object with the status words and prints them, so a value
    that is not a string stands here as the text that [str] gives for it,
    which is never one of the status words. *)
Inductive http_reply : Type :=
| NoResponse
| NotJson
| JsonNull
| JsonObject (items : list (string * string))
| JsonOther.

(** What [export_saved_passwords] gives back: None, a dict, or a value that
    is neither. *)
Inductive export_result : Type :=
| ResultNone
| ResultDict (items : list (string * string))
| ResultOther.

(** [d.get(key)] *)
Fixpoint dict_get (key : string) (items : list (string * string))
  : option string :=
  match items with
  | [] => None
  | (k, v) :: rest => if String.eqb k key then Some v else dict_get key rest
  end.

(** [d.get(key, default)] *)
Definition dict_get_default (key default : string)
  (items : list (string * string)) : string :=
  match dict_get key items with
  | Some v => v
  | None => default
  end.

Inductive event : Type :=
| EvPrint (text : string)                      (* print(text) *)
| EvInput (prompt line : string)               (* input(prompt) gave line *)
| EvLoginPost (username password : string)     (* POST to the login service *)
| EvExportPost (filename : string) (data : list PasswordRecord)
                                               (* POST to the export service *)
| EvChoices (pool : list ascii) (k : Z).       (* random.choices(pool, k=k) *)

Inductive exception : Type :=
| IndexError
| ValueError
| AttributeError.

(** The environment answers as a function of everything that happened
    before, so a service may lock an account after some attempts and the
    random source may give a different draw each time. *)
Record Env : Type := mkEnv {
  login_service : list event -> string -> string -> http_reply;
  export_service : list event -> string -> list PasswordRecord -> http_reply;
  (* the i-th draw of one call of random.choices *)
  random_draw : list event -> nat -> nat
}.

Record World : Type := mkWorld {
  stdin : list string;                      (* lines still to be typed *)
  trace : list event;                       (* oldest event first *)
  saved_passwords : list PasswordRecord     (* the list object of main *)
}.

(** Why a call does not return. [AwaitingInput]: [input] is called and no
    typed line is left; the run is followed no further (a terminal blocks
    there, a closed stdin raises EOFError). [OutOfBound] is the model's
    own: a loop used up its bound; [main_finishes] shows that the program
    never gets there. *)
Inductive stop : Type :=
| SystemExit (status : Z)            (* raise SystemExit(status) *)
| Uncaught (e : exception)           (* an exception nobody catches *)
| AwaitingInput
| OutOfBound.

Inductive outcome (A : Type) : Type :=
| Returned (a : A) (w : World)
| Stopped (why : stop) (w : World).

Arguments Returned {A} a w.
Arguments Stopped {A} why w.

(** The world in which a call ends, however it ends. *)
Definition final {A} (o : outcome A) : World :=
  match o with
  | Returned _ w => w
  | Stopped _ w => w
  end.

Definition M (A : Type) : Type := World -> outcome A.

Definition ret {A} (a : A) : M A := fun w => Returned a w.

Definition bind {A B} (m : M A) (f : A -> M B) : M B :=
  fun w =>
    match m w with
    | Returned a w' => f a w'
    | Stopped why w' => Stopped why w'
    end.

Declare Scope py_scope.
Delimit Scope py_scope with py.
Notation "x <- m ;; k" := (bind m (fun x => k))
  (at level 61, m at next level, right associativity) : py_scope.
Notation "' pat <- m ;; k" := (bind m (fun x => match x with pat => k end))
  (at level 61, pat pattern, m at next level, right associativity) : py_scope.
Notation "m ;; k" := (bind m (fun _ => k))
  (at level 61, right associativity) : py_scope.
Local Open Scope py_scope.

Definition log (e : event) (w : World) : World :=
  mkWorld (stdin w) (trace w ++ [e]) (saved_passwords w).

(** [print(text)] *)
Definition print (text : string) : M unit :=
  fun w => Returned tt (log (EvPrint text) w).

(** [input(prompt)] *)
Definition input (prompt : string) : M string :=
  fun w =>
    match stdin w with
    | [] => Stopped AwaitingInput w
    | line :: rest =>
        Returned line
          (mkWorld rest (trace w ++ [EvInput prompt line]) (saved_passwords w))
    end.

(** What one pass through the body of a [while True:] does next. *)
Inductive ctl (S A : Type) : Type :=
| Again (s : S)       (* fall off the end of the body, or [continue] *)
| Return (a : A).     (* [return a] *)

Arguments Again {S A} s.
Arguments Return {S A} a.

Fixpoint loop {S A} (bound : nat) (body : S -> M (ctl S A)) (s : S) : M A :=
  fun w =>
    match bound with
    | O => Stopped OutOfBound w
    | Datatypes.S bound' =>
        match body s w with
        | Returned (Again s') w' => loop bound' body s' w'
        | Returned (Return a) w' => Returned a w'
        | Stopped why w' => Stopped why w'
        end
    end.

(** [while True: body], over the local variables [s] that the body
    updates. Every loop of the program reads a line in each pass, so one
    pass more than there are lines is always enough. *)
Definition while_true {S A} (body : S -> M (ctl S A)) (s : S) : M A :=
  fun w => loop (Datatypes.S (List.length (stdin w))) body s w.

(* ================================================================== *)
(** * The program *)

Section Program.

Variable env : Env.

(** [input(prompt).strip()] *)
Definition input_strip (prompt : string) : M string :=
  line <- input prompt ;;
  ret (strip line).

(** [raise SystemExit(0)] *)
Definition exit_program {A} : M A := fun w => Stopped (SystemExit 0) w.

(** An exception that nothing catches. *)
Definition raise {A} (e : exception) : M A := fun w => Stopped (Uncaught e) w.

(** [int(s)] as a call: the value, or ValueError. *)
Definition py_int (s : string) : M Z :=
  match int s with
  | Some n => ret n
  | None => raise ValueError
  end.

(* ---------------------------------------------------------------- *)
(** ** Login *)

Definition attempt_login (username password : string) : M string :=
  fun w =>
    let w' := log (EvLoginPost username password) w in
    match login_service env (trace w) username password with
    | NoResponse => Returned "service_error" w'
    | NotJson => Returned "service_error" w'
    | JsonObject data =>
        Returned (dict_get_default "status" "service_error" data) w'
    (* data.get on None, a list, a str, a number or a bool *)
    | JsonNull => Stopped (Uncaught AttributeError) w'
    | JsonOther => Stopped (Uncaught AttributeError) w'
    end.

Definition run_login_screen_body (_ : unit) : M (ctl unit bool) :=
  print "" ;;
  print "Login Required" ;;
  print "Enter your username and password to continue." ;;
  print ("Press Enter on username to quit." ++ nl) ;;
  username <- input_strip "Username: " ;;
  if username =? "" then ret (Return false)
  else
    password <- input_strip "Password: " ;;
    status <- attempt_login username password ;;
    if status =? "ok" then
      print (nl ++ "Login successful." ++ nl) ;;
      ret (Return true)
    else if status =? "locked" then
      print (nl ++ "Account locked. Wait a bit and try again." ++ nl) ;;
      ret (Again tt)
    else if status =? "invalid_credentials" then
      print (nl ++ "Invalid username or password." ++ nl) ;;
      ret (Again tt)
    else if status =? "invalid_format" then
      print (nl ++ "Invalid input format." ++ nl) ;;
      ret (Again tt)
    else
      print (nl ++ "Login service error. Make sure the login microservice is running." ++ nl) ;;
      ret (Again tt).

Definition run_login_screen : M bool :=
  while_true run_login_screen_body tt.

(* ---------------------------------------------------------------- *)
(** ** History and export *)

Definition save_generated_password (password : string) (length : Z)
  (use_lower use_upper use_digit use_symbol : bool) : M unit :=
  fun w =>
    let record :=
      mkRecord password length use_lower use_upper use_digit use_symbol in
    Returned tt
      (mkWorld (stdin w) (trace w) (saved_passwords w ++ [record])).

Definition export_saved_passwords (filename : string) : M export_result :=
  fun w =>
    let w' := log (EvExportPost filename (saved_passwords w)) w in
    match export_service env (trace w) filename (saved_passwords w) with
    | NoResponse => Returned ResultNone w'
    | NotJson => Returned ResultNone w'
    (* return resp.json(), whatever it is *)
    | JsonNull => Returned ResultNone w'
    | JsonObject result => Returned (ResultDict result) w'
    | JsonOther => Returned ResultOther w'
    end.

(** [len(saved_passwords)] *)
Definition len_saved_passwords : M nat :=
  fun w => Returned (List.length (saved_passwords w)) w.

Definition run_export_screen : M unit :=
  print "" ;;
  print "Export Saved Passwords" ;;
  n <- len_saved_passwords ;;
  if (n =? 0)%nat then
    print "There are no saved passwords to export yet." ;;
    input (nl ++ "Press Enter to return to menu: ") ;;
    ret tt
  else
    typed <- input_strip "Enter filename (example: passwords.csv) or press Enter for default: " ;;
    let filename := if typed =? "" then "passwords.csv" else typed in
    result <- export_saved_passwords filename ;;
    match result with
    | ResultNone =>
        print (nl ++ "Export service error. Make sure the export microservice is running." ++ nl) ;;
        input "Press Enter to return to menu: " ;;
        ret tt
    (* result.get on a list, a str, a number or a bool *)
    | ResultOther => raise AttributeError
    | ResultDict result =>
        (match dict_get "status" result with
         | Some "ok" =>
             print (nl ++ "Export complete.") ;;
             print ("Saved file path: " ++
                    match dict_get "path" result with
                    | Some path => path
                    | None => "None"
                    end)
         | _ =>
             print (nl ++ "Export failed: " ++
                    dict_get_default "error_message" "Unknown error." result)
         end) ;;
        input (nl ++ "Press Enter to return to menu: ") ;;
        ret tt
    end.

(* ---------------------------------------------------------------- *)
(** ** Welcome, status line, main menu *)

Definition show_welcome : M unit :=
  print (nl ++ "PASSWORD GENERATOR" ++ nl) ;;
  print "Welcome to the PASSWORD GENERATOR application by Peter Dalgleish!" ;;
  print "This application is for generating secure, random passwords to protect any online account." ;;
  input (nl ++ "Press enter to continue: ") ;;
  ret tt.

Definition format_settings_line (length : option Z) (types_set : bool)
  : string :=
  let length_str :=
    match length with
    | None => "[not set]"
    | Some n => "[" ++ str n ++ "]"
    end in
  let types_str := if types_set then "[set]" else "[not set]" in
  "Settings: Length = " ++ length_str ++ " | Types = " ++ types_str ++
  nl ++ "MUST SET LENGTH AND CHARACTER TYPES FIRST!" ++ nl.

Definition run_main_menu (length : option Z) (types_set : bool) : M string :=
  print "" ;;
  print (format_settings_line length types_set) ;;
  print "Menu" ;;
  print "1) Generate password" ;;
  print "2) Edit password settings" ;;
  print "3) I need help!" ;;
  print "4) Export saved passwords to CSV" ;;
  print "5) Exit program" ;;
  choice <- input_strip (nl ++ "Enter choice: ") ;;
  ret choice.

(* ---------------------------------------------------------------- *)
(** ** Settings *)

(** The scan of [raw] that sets [is_number]. *)
Fixpoint is_number (raw : string) : bool :=
  match raw with
  | EmptyString => true
  | String c rest =>
      if negb (char_in c "0123456789") then false else is_number rest
  end.

Definition do_set_length (current_length : option Z) : M (option Z) :=
  let min_length := 5 in
  let max_length := 100 in
  let weak_threshold := 10 in
  print "" ;;
  print "Set Length" ;;
  print "Note: Longer passwords are stronger, but can be harder to type." ;;
  print "Set password length (5-100)" ;;
  let current_display :=
    match current_length with
    | None => "[not set]"
    | Some n => str n
    end in
  print ("Current length: " ++ current_display) ;;
  raw <- input_strip (nl ++ "Enter length: ") ;;
  if raw =? "" then
    input (nl ++ "Press Enter to return to settings...") ;;
    ret current_length
  else if negb (is_number raw) then
    input (nl ++ "Press Enter to return to settings...") ;;
    ret current_length
  else
    n <- py_int raw ;;
    if (n <? min_length)%Z || (n >? max_length)%Z then
      input (nl ++ "Press Enter to return to settings...") ;;
      ret current_length
    else if (n <? weak_threshold)%Z then
      print "" ;;
      print (nl ++ "Note: Length " ++ str n ++ " is a relatively weak password. Recommendation: Use 10+ characters unless a site requires a shorter password.") ;;
      answer <- input_strip ("Continue with " ++ str n ++ "? (y/n): ") ;;
      let confirm := lower answer in
      if negb (confirm =? "y") then
        input (nl ++ "Press Enter to return to settings...") ;;
        ret current_length
      else ret (Some n)
    else ret (Some n).

Definition char_types : Type := (bool * bool * bool * bool)%type.

Definition do_character_types_body (flags : char_types)
  : M (ctl char_types char_types) :=
  let '(use_lower, use_upper, use_digit, use_symbol) := flags in
  print "" ;;
  print "Set Character Types" ;;
  print "Note: Some sites reject certain symbols, but adding them can significantly increase password strength." ;;
  print ("Choose which character types to include:" ++ nl) ;;
  let lower_label := if use_lower then "ON" else "OFF" in
  let upper_label := if use_upper then "ON" else "OFF" in
  let digit_label := if use_digit then "ON" else "OFF" in
  let symbol_label := if use_symbol then "ON" else "OFF" in
  print ("Lowercase letters (a-z): [" ++ lower_label ++ "]") ;;
  print ("Uppercase letters (A-Z): [" ++ upper_label ++ "]") ;;
  print ("Numbers (0-9): [" ++ digit_label ++ "]") ;;
  print ("Symbols (!@#$...): [" ++ symbol_label ++ "]") ;;
  print (nl ++ "1) Toggle lowercase") ;;
  print "2) Toggle uppercase" ;;
  print "3) Toggle numbers" ;;
  print "4) Toggle symbols" ;;
  print "5) Save and return to settings" ;;
  choice <- input_strip (nl ++ "Enter choice: ") ;;
  if choice =? "1" then
    ret (Again (negb use_lower, use_upper, use_digit, use_symbol))
  else if choice =? "2" then
    ret (Again (use_lower, negb use_upper, use_digit, use_symbol))
  else if choice =? "3" then
    ret (Again (use_lower, use_upper, negb use_digit, use_symbol))
  else if choice =? "4" then
    ret (Again (use_lower, use_upper, use_digit, negb use_symbol))
  else if choice =? "5" then
    ret (Return (use_lower, use_upper, use_digit, use_symbol))
  else ret (Again (use_lower, use_upper, use_digit, use_symbol)).

Definition do_character_types
  (use_lower use_upper use_digit use_symbol : bool) : M char_types :=
  while_true do_character_types_body
    (use_lower, use_upper, use_digit, use_symbol).

(** The six values [run_settings] takes and gives back:
    (length, types_set, use_lower, use_upper, use_digit, use_symbol). *)
Definition settings : Type :=
  (option Z * bool * bool * bool * bool * bool)%type.

Definition run_settings_body (s : settings) : M (ctl settings settings) :=
  let '(length, types_set, use_lower, use_upper, use_digit, use_symbol) := s in
  print "" ;;
  print (format_settings_line length types_set) ;;
  print "1) Set length" ;;
  print "2) Choose character types" ;;
  print "3) Return to menu" ;;
  print "4) Exit program" ;;
  choice <- input_strip (nl ++ "Enter choice: ") ;;
  if choice =? "1" then
    length <- do_set_length length ;;
    ret (Again (length, types_set, use_lower, use_upper, use_digit, use_symbol))
  else if choice =? "2" then
    '(use_lower, use_upper, use_digit, use_symbol) <-
      do_character_types use_lower use_upper use_digit use_symbol ;;
    let types_set := true in
    ret (Again (length, types_set, use_lower, use_upper, use_digit, use_symbol))
  else if choice =? "3" then
    ret (Return (length, types_set, use_lower, use_upper, use_digit, use_symbol))
  else if choice =? "4" then
    exit_program
  else
    ret (Again (length, types_set, use_lower, use_upper, use_digit, use_symbol)).

Definition run_settings (length : option Z)
  (types_set use_lower use_upper use_digit use_symbol : bool) : M settings :=
  while_true run_settings_body
    (length, types_set, use_lower, use_upper, use_digit, use_symbol).

(* ---------------------------------------------------------------- *)
(** ** Generation *)

(** The pool that [generate_password] builds before it samples. *)
Definition build_pool (use_lower use_upper use_digit use_symbol : bool)
  : list ascii :=
  let pool : list ascii := [] in
  let pool := if use_lower then (pool ++ chars ascii_lowercase)%list else pool in
  let pool := if use_upper then (pool ++ chars ascii_uppercase)%list else pool in
  let pool := if use_digit then (pool ++ chars digits)%list else pool in
  let pool :=
    if use_symbol
    then (pool ++ chars "!@#$%^&*()_+-=[]{}|;:',.<>?/`~")%list
    else pool in
  pool.

(** [population[floor(random() * n)]] for the draws number [i], [i+1],
    ... of one call: [random()] lies in [0, 1), so the index lies below
    [n] when [n] is positive and is 0 when the population is empty, where
    the subscript raises IndexError ([None]). *)
Fixpoint draw_from (population : list ascii) (draw : nat -> nat)
  (i count : nat) : option (list ascii) :=
  match count with
  | O => Some []
  | S count' =>
      let n := List.length population in
      let index := match n with O => O | _ => Nat.modulo (draw i) n end in
      match nth_error population index with
      | None => None
      | Some c =>
          match draw_from population draw (S i) count' with
          | None => None
          | Some rest => Some (c :: rest)
          end
      end
  end.

(** [random.choices(population, k=k)]; a negative [k] gives no draw. *)
Definition random_choices (population : list ascii) (k : Z)
  : M (list ascii) :=
  fun w =>
    let w' := log (EvChoices population k) w in
    match draw_from population (random_draw env (trace w)) 0 (Z.to_nat k) with
    | Some picked => Returned picked w'
    | None => Stopped (Uncaught IndexError) w'
    end.

Definition generate_password (length : Z)
  (use_lower use_upper use_digit use_symbol : bool) : M string :=
  let pool := build_pool use_lower use_upper use_digit use_symbol in
  picked <- random_choices pool length ;;
  ret (join picked).

Definition run_generate_screen_body (length : Z)
  (types_set use_lower use_upper use_digit use_symbol : bool) (_ : unit)
  : M (ctl unit unit) :=
  print "" ;;
  print (format_settings_line (Some length) types_set) ;;
  print "Generated password:" ;;
  pwd <- generate_password length use_lower use_upper use_digit use_symbol ;;
  print pwd ;;
  save_generated_password pwd length use_lower use_upper use_digit use_symbol ;;
  print "1) Generate new password" ;;
  print "2) Return to menu" ;;
  print "3) Exit program" ;;
  choice <- input_strip (nl ++ "Enter choice: ") ;;
  if choice =? "1" then ret (Again tt)
  else if choice =? "2" then ret (Return tt)
  else if choice =? "3" then exit_program
  else ret (Again tt).

Definition run_generate_screen (length : Z)
  (types_set use_lower use_upper use_digit use_symbol : bool) : M unit :=
  while_true
    (run_generate_screen_body length types_set
       use_lower use_upper use_digit use_symbol) tt.

Definition show_settings_required_message : M unit :=
  print "" ;;
  print "Set length and character types first in Edit password settings." ;;
  input (nl ++ "Press Enter to return to menu: ") ;;
  ret tt.

(* ---------------------------------------------------------------- *)
(** ** Help *)

Definition show_quickstart_help : M unit :=
  print "" ;;
  print "Quickstart Guide" ;;
  print "To use this program efficiently, follow these steps in order:" ;;
  print "Step 1/3: Set length" ;;
  print "Step 2/3: Choose character types" ;;
  print "Step 3/3: Generate password" ;;
  input (nl ++ "Press Enter to go back: ") ;;
  ret tt.

Definition show_length_help : M unit :=
  print "" ;;
  print "Help for Password Length" ;;
  print "When entering the password length, consider:" ;;
  print "Longer passwords are harder to guess." ;;
  print "Recommended length: 12-20 characters." ;;
  print "Allowed range in this program: 5-100." ;;
  input (nl ++ "Press Enter to go back: ") ;;
  ret tt.

Definition show_character_types_help : M unit :=
  print "" ;;
  print "Help for Password Character Types" ;;
  print "Using more character types usually makes passwords stronger." ;;
  print "If a site does not allow symbols, toggle symbols OFF." ;;
  print "You must select at least one type of character to generate a new password." ;;
  input (nl ++ "Press Enter to go back: ") ;;
  ret tt.

Definition run_help_menu_body (_ : unit) : M (ctl unit unit) :=
  print "" ;;
  print "Help Menu" ;;
  print "1) Quickstart guide" ;;
  print "2) Password length help" ;;
  print "3) Character types help" ;;
  print "4) Return to menu" ;;
  print "5) Exit program" ;;
  choice <- input_strip (nl ++ "Enter choice: ") ;;
  if choice =? "1" then show_quickstart_help ;; ret (Again tt)
  else if choice =? "2" then show_length_help ;; ret (Again tt)
  else if choice =? "3" then show_character_types_help ;; ret (Again tt)
  else if choice =? "4" then ret (Return tt)
  else if choice =? "5" then exit_program
  else ret (Again tt).

Definition run_help_menu : M unit := while_true run_help_menu_body tt.

(* ---------------------------------------------------------------- *)
(** ** Main *)

(** [saved_passwords = []] *)
Definition new_saved_passwords : M unit :=
  fun w => Returned tt (mkWorld (stdin w) (trace w) []).

(** The values of main's variables before its loop. *)
Definition initial_settings : settings :=
  (None, false, true, true, true, false).

Definition main_body (s : settings) : M (ctl settings unit) :=
  let '(length, types_set, use_lower, use_upper, use_digit, use_symbol) := s in
  choice <- run_main_menu length types_set ;;
  if choice =? "1" then
    match length with
    | None => show_settings_required_message ;; ret (Again s)
    | Some n =>
        if negb types_set then show_settings_required_message ;; ret (Again s)
        else
          run_generate_screen n types_set
            use_lower use_upper use_digit use_symbol ;;
          ret (Again s)
    end
  else if choice =? "2" then
    s' <- run_settings length types_set
            use_lower use_upper use_digit use_symbol ;;
    ret (Again s')
  else if choice =? "3" then run_help_menu ;; ret (Again s)
  else if choice =? "4" then run_export_screen ;; ret (Again s)
  else if choice =? "5" then exit_program
  else ret (Again s).

Definition main : M unit :=
  show_welcome ;;
  logged_in <- run_login_screen ;;
  (if negb logged_in then exit_program else ret tt) ;;
  new_saved_passwords ;;
  while_true main_body initial_settings.

End Program.

(** The world in which the program starts: the lines the user will type,
    nothing printed or sent yet. *)
Definition start (lines : list string) : World := mkWorld lines [] [].

(* ================================================================== *)
(** * Reasoning about calls *)

(** [wp m Q E w]: started in [w], the call [m] either returns a value and
    a world that satisfy [Q], or stops for a reason and in a world that
    satisfy [E]. *)
Definition wp {A} (m : M A) (Q : A -> World -> Prop)
  (E : stop -> World -> Prop) (w : World) : Prop :=
  match m w with
  | Returned a w' => Q a w'
  | Stopped why w' => E why w'
  end.

(** [grows P w w']: between [w] and [w'] typed lines were only read, events
    of class [P] were only added, and records were only appended. *)
Record grows (P : event -> bool) (w w' : World) : Prop := mkGrows {
  grows_stdin : exists used, stdin w = (used ++ stdin w')%list;
  grows_trace :
    exists new, trace w' = (trace w ++ new)%list /\ forallb P new = true;
  grows_saved :
    exists more, saved_passwords w' = (saved_passwords w ++ more)%list
}.

(** A call that only makes the world grow and never uses up a loop bound. *)
Definition tame (P : event -> bool) {A} (m : M A) : Prop :=
  forall w,
    wp m (fun _ w' => grows P w w')
         (fun why w' => why <> OutOfBound /\ grows P w w') w.

(** A tame call that reads at least one line before it returns. *)
Definition reading (P : event -> bool) {A} (m : M A) : Prop :=
  forall w,
    wp m (fun _ w' =>
            grows P w w' /\ (List.length (stdin w') < List.length (stdin w))%nat)
         (fun why w' => why <> OutOfBound /\ grows P w w') w.

(** Every event. *)
Definition any_event (_ : event) : bool := true.

(** The events that are not the login screen's: no request to the login
    service and no username prompt. *)
Definition after_login (e : event) : bool :=
  match e with
  | EvLoginPost _ _ => false
  | EvInput prompt _ => negb (prompt =? "Username: ")
  | _ => true
  end.

(** Everything but a username line that is blank once stripped. *)
Definition not_blank_username (e : event) : bool :=
  match e with
  | EvInput prompt line =>
      negb (prompt =? "Username: ") || negb (strip line =? "")
  | _ => true
  end.

(** The states a [while True:] loop can be in at the top of a pass, from
    the state and world it is entered with. *)
Inductive reaches {S A} (body : S -> M (ctl S A)) (s0 : S) (w0 : World)
  : S -> World -> Prop :=
| reaches_entry : reaches body s0 w0 s0 w0
| reaches_pass s w s' w' :
    reaches body s0 w0 s w ->
    body s w = Returned (Again s') w' ->
    reaches body s0 w0 s' w'.

(** The length of a session: not set, or between 5 and 100. *)
Definition length_ok (length : option Z) : Prop :=
  match length with
  | None => True
  | Some n => 5 <= n <= 100
  end.

Definition settings_length (s : settings) : option Z :=
  let '(length, _, _, _, _, _) := s in length.

(* ------------------------------------------------------------------ *)
(** ** Vocabulary of the properties *)

(** The four character classes, by code point and by membership. *)
Definition is_lowercase (c : ascii) : bool :=
  let n := N_of_ascii c in ((97 <=? n) && (n <=? 122))%N.

Definition is_uppercase (c : ascii) : bool :=
  let n := N_of_ascii c in ((65 <=? n) && (n <=? 90))%N.

Definition is_digit (c : ascii) : bool :=
  let n := N_of_ascii c in ((48 <=? n) && (n <=? 57))%N.

Definition symbol_set : string := "!@#$%^&*()_+-=[]{}|;:',.<>?/`~".

Definition is_symbol (c : ascii) : bool := char_in c symbol_set.

(** A character of one of the classes that are switched on. *)
Definition in_enabled_class (use_lower use_upper use_digit use_symbol : bool)
  (c : ascii) : bool :=
  (use_lower && is_lowercase c) || (use_upper && is_uppercase c)
  || (use_digit && is_digit c) || (use_symbol && is_symbol c).

(** An environment for examples: the login service accepts everyone, the
    export service writes the file. *)
Definition env_ok : Env :=
  mkEnv (fun _ _ _ => JsonObject [("status", "ok")])
        (fun _ _ _ => JsonObject [("status", "ok"); ("path", "/out/passwords.csv")])
        (fun tr i => (7 * i + List.length tr)%nat).

(** Made of the characters 0..9 only. *)
Definition all_digits (s : string) : bool := forallb is_digit (chars s).

(** The length after [do_set_length], as a function of the line typed for
    the length and the line typed at the weak-length question, when the
    answer has to be the one character y as it is typed. *)
Definition length_claimed (current : option Z) (raw answer : string)
  : option Z :=
  let typed := strip raw in
  if typed =? "" then current
  else if negb (all_digits typed) then current
  else
    let n := int_value typed in
    if (n <? 5)%Z || (n >? 100)%Z then current
    else if (n <? 10)%Z && negb (answer =? "y") then current
    else Some n.

(** The same, when the answer is stripped and put in lower case before it
    is compared with y. *)
Definition length_amended (current : option Z) (raw answer : string)
  : option Z :=
  let typed := strip raw in
  if typed =? "" then current
  else if negb (all_digits typed) then current
  else
    let n := int_value typed in
    if (n <? 5)%Z || (n >? 100)%Z then current
    else if (n <? 10)%Z && negb (lower (strip answer) =? "y") then current
    else Some n.

(** Which of the four flags differ between two settings. *)
Definition changed (before after : char_types) : list bool :=
  let '(l, u, d, s) := before in
  let '(l', u', d', s') := after in
  [xorb l l'; xorb u u'; xorb d d'; xorb s s'].

(** The world in which a pass of the generate screen calls
    [generate_password]: the status line and the heading are printed. *)
Definition before_generation (length : Z) (types_set : bool) (w : World)
  : World :=
  log (EvPrint "Generated password:")
    (log (EvPrint (format_settings_line (Some length) types_set))
       (log (EvPrint "") w)).

(** A session in which the user logs in, sets the length 12, switches
    lowercase, uppercase and numbers off, saves, and asks for a password. *)
Definition script_no_type : list string :=
  [""; "alice"; "secret";          (* welcome, login *)
   "2"; "1"; "12";                 (* settings: length 12 *)
   "2"; "1"; "2"; "3"; "5";        (* character types: all off, save *)
   "3"; "1"].                      (* back to the menu, generate *)

(** The status that [attempt_login] reads from a reply of the login
    service when it returns; a body that is JSON but not an object, on
    which it raises, is never read as ok. *)
Definition status_of (reply : http_reply) : string :=
  match reply with
  | JsonObject data => dict_get_default "status" "service_error" data
  | _ => "service_error"
  end.

(** Some request to the login service in the trace was answered ok. *)
Definition granted (env : Env) (tr : list event) : Prop :=
  exists pre username password post,
    tr = (pre ++ EvLoginPost username password :: post)%list /\
    status_of (login_service env pre username password) = "ok".

(** Everything but the heading of the main menu. *)
Definition not_menu (e : event) : bool :=
  match e with
  | EvPrint text => negb (text =? "Menu")
  | _ => true
  end.

(** What the login screen prints before it asks for the username. *)
Definition login_heading : list event :=
  [EvPrint ""; EvPrint "Login Required";
   EvPrint "Enter your username and password to continue.";
   EvPrint ("Press Enter on username to quit." ++ nl)].

(** The ways in which the program can stop, each with what happened last.
    SystemExit: the status is 0. [AwaitingInput]: every typed line has been
    read. IndexError: a draw of at least one character from the empty pool.
    ValueError: a length line that is, once stripped, made of more digits
    than [int] converts. AttributeError: a request to the login service
    answered by a JSON body that is not an object, or a request to the
    export service answered by a JSON body that is neither an object nor
    null. *)
Definition clean_stop (env : Env) (why : stop) (w : World) : Prop :=
  match why with
  | SystemExit status => status = 0
  | AwaitingInput => stdin w = []
  | OutOfBound => False
  | Uncaught IndexError =>
      exists pre k, trace w = (pre ++ [EvChoices [] k])%list /\ 1 <= k
  | Uncaught ValueError =>
      exists pre line,
        trace w = (pre ++ [EvInput (nl ++ "Enter length: ") line])%list /\
        is_number (strip line) = true /\
        (max_str_digits < String.length (strip line))%nat
  | Uncaught AttributeError =>
      exists pre,
        (exists username password,
            trace w = (pre ++ [EvLoginPost username password])%list /\
            (login_service env pre username password = JsonNull \/
             login_service env pre username password = JsonOther)) \/
        (exists filename data,
            trace w = (pre ++ [EvExportPost filename data])%list /\
            export_service env pre filename data = JsonOther)
  end.

(** A call that stops in these ways only. *)
Definition clean (env : Env) {A} (m : M A) : Prop :=
  forall w, wp m (fun _ _ => True) (clean_stop env) w.

(** A record that is consistent: its length lies between 5 and 100, its
    password has that many characters, and each of them is of a class that
    the record says was switched on. *)
Definition record_ok (r : PasswordRecord) : Prop :=
  5 <= rec_length r <= 100 /\
  Z.of_nat (String.length (rec_password r)) = rec_length r /\
  forallb (in_enabled_class (rec_lowercase r) (rec_uppercase r)
             (rec_numbers r) (rec_symbols r))
    (chars (rec_password r)) = true.

(** An event that is in order: a request to the export service carries at
    least one record, and consistent records only. *)
Definition event_ok (e : event) : Prop :=
  match e with
  | EvExportPost _ data => data <> [] /\ Forall record_ok data
  | _ => True
  end.

(** A world whose saved records and whose events are all in order, and in
    which the password of every saved record has been printed. *)
Definition world_ok (w : World) : Prop :=
  Forall record_ok (saved_passwords w) /\
  Forall event_ok (trace w) /\
  Forall (fun r => In (EvPrint (rec_password r)) (trace w)) (saved_passwords w).

(** A call that keeps the world in order, however it ends. *)
Definition keeps {A} (m : M A) : Prop :=
  forall w,
    world_ok w -> wp m (fun _ w' => world_ok w') (fun _ w' => world_ok w') w.

(** A call that prints some lines and does nothing else. *)
Definition prints_only (m : M unit) : Prop :=
  forall w,
    exists messages,
      m w = Returned tt
              (mkWorld (stdin w) (trace w ++ map EvPrint messages)
                 (saved_passwords w)).

(** The prompt of the export screen for the name of the file. *)
Definition filename_prompt : string :=
  "Enter filename (example: passwords.csv) or press Enter for default: ".

Definition settings_types_set (s : settings) : bool :=
  let '(_, types_set, _, _, _, _) := s in types_set.

(** What the terminal alone does: a line printed or a line read. *)
Definition terminal_only (e : event) : bool :=
  match e with
  | EvPrint _ => true
  | EvInput _ _ => true
  | _ => false
  end.

(** From [s0] to [s] nothing that was set has become unset: a length stays
    a length, and the types stay marked as set. *)
Definition stays_set (s0 s : settings) : Prop :=
  (settings_length s0 <> None -> settings_length s <> None) /\
  (settings_types_set s0 = true -> settings_types_set s = true).

(** How many of the lines are the choice [k] once stripped. *)
Definition pressed (k : string) (lines : list string) : nat :=
  List.length (filter (fun line => strip line =? k) lines).

(** The four flags after the lines typed on the character-types screen:
    each flag is flipped when its number was chosen an odd number of
    times. *)
Definition flipped (lines : list string) (flags : char_types) : char_types :=
  let '(l, u, d, s) := flags in
  (xorb l (Nat.odd (pressed "1" lines)),
   xorb u (Nat.odd (pressed "2" lines)),
   xorb d (Nat.odd (pressed "3" lines)),
   xorb s (Nat.odd (pressed "4" lines))).

(** Between [w] and [w'] only the terminal was used: lines were printed
    and read, the saved records are the same. *)
Definition untouched (w w' : World) : Prop :=
  saved_passwords w' = saved_passwords w /\
  exists new,
    trace w' = (trace w ++ new)%list /\ forallb terminal_only new = true.

(** A call that only uses the terminal, however it ends. *)
Definition quiet {A} (m : M A) : Prop :=
  forall w, wp m (fun _ w' => untouched w w') (fun _ w' => untouched w w') w.

(** A session that sets the length 5, leaves only the numbers switched on,
    generates one password, exports it and exits. *)
Definition script_export : list string :=
  [""; "alice"; "secret";               (* welcome, login *)
   "2"; "1"; "5"; "y";                  (* settings: length 5, confirmed *)
   "2"; "1"; "2"; "5"; "3";             (* types: numbers only; back *)
   "1"; "2";                            (* generate once; back *)
   "4"; "out.csv"; "";                  (* export *)
   "5"].                                (* exit *)

(** The passwords that a stretch of the trace shows as generated: the
    lines printed right after a draw. *)
Fixpoint shown_passwords (tr : list event) : list string :=
  match tr with
  | [] => []
  | e :: rest =>
      match e, rest with
      | EvChoices _ _, EvPrint pwd :: _ => pwd :: shown_passwords rest
      | _, _ => shown_passwords rest
      end
  end.

(** A record that holds the length [n] and the four flags given. *)
Definition made_with (n : Z) (ul uu ud us : bool) (r : PasswordRecord)
  : Prop :=
  rec_length r = n /\ rec_lowercase r = ul /\ rec_uppercase r = uu /\
  rec_numbers r = ud /\ rec_symbols r = us.

(** Between [w] and [w'] records were appended, one for each password
    generated and shown, in that order and with that password, each holding
    the length [n] and the four flags given. *)
Definition generated_into (n : Z) (ul uu ud us : bool) (w w' : World)
  : Prop :=
  exists more new,
    saved_passwords w' = (saved_passwords w ++ more)%list /\
    trace w' = (trace w ++ new)%list /\
    map rec_password more = shown_passwords new /\
    Forall (made_with n ul uu ud us) more.

Section Rules.

Context {A : Type}.

Lemma wp_ret (a : A) Q E w : Q a w -> wp (ret a) Q E w.
Proof. exact (fun H => H). Qed.

Lemma wp_bind {B} (m : M A) (f : A -> M B) Q E w :
  wp m (fun a w' => wp (f a) Q E w') E w -> wp (bind m f) Q E w.
Proof. unfold wp, bind. destruct (m w); auto. Qed.

Lemma wp_mono (m : M A) (Q Q' : A -> World -> Prop)
  (E E' : stop -> World -> Prop) w :
  wp m Q E w ->
  (forall a w', Q a w' -> Q' a w') ->
  (forall why w', E why w' -> E' why w') ->
  wp m Q' E' w.
Proof. unfold wp. destruct (m w); auto. Qed.

Lemma wp_returned (m : M A) Q E w a w' :
  wp m Q E w -> m w = Returned a w' -> Q a w'.
Proof. unfold wp. intros H Hm. now rewrite Hm in H. Qed.

Lemma wp_stopped (m : M A) Q E w why w' :
  wp m Q E w -> m w = Stopped why w' -> E why w'.
Proof. unfold wp. intros H Hm. now rewrite Hm in H. Qed.

End Rules.

Lemma wp_print text Q E w :
  Q tt (log (EvPrint text) w) -> wp (print text) Q E w.
Proof. exact (fun H => H). Qed.

Lemma wp_input prompt Q E w :
  (stdin w = [] -> E AwaitingInput w) ->
  (forall line rest,
      stdin w = line :: rest ->
      Q line (mkWorld rest (trace w ++ [EvInput prompt line])
                (saved_passwords w))) ->
  wp (input prompt) Q E w.
Proof.
  unfold wp, input. intros Hwait Hline.
  destruct (stdin w) as [|line rest]; auto.
Qed.

Lemma wp_input_strip prompt Q E w :
  (stdin w = [] -> E AwaitingInput w) ->
  (forall line rest,
      stdin w = line :: rest ->
      Q (strip line)
        (mkWorld rest (trace w ++ [EvInput prompt line]) (saved_passwords w))) ->
  wp (input_strip prompt) Q E w.
Proof.
  intros Hwait Hline. unfold input_strip.
  apply wp_bind, wp_input; auto.
Qed.

(** The rule of a [while True:] loop whose passes each read a line: an
    invariant of the state at the top of a pass is enough, and the bound of
    the model is never used up. *)
Lemma wp_while_true {S A} (body : S -> M (ctl S A))
  (I : S -> World -> Prop) Q E :
  (forall s w,
      I s w ->
      wp (body s)
         (fun c w' =>
            match c with
            | Again s' =>
                I s' w' /\ (List.length (stdin w') < List.length (stdin w))%nat
            | Return a => Q a w'
            end) E w) ->
  forall s w, I s w -> wp (while_true body s) Q E w.
Proof.
  intros Hbody.
  assert (Hloop : forall n s w,
             I s w -> (List.length (stdin w) < n)%nat ->
             wp (loop n body s) Q E w).
  { induction n as [|n IH]; intros s w HI Hn; [lia|].
    unfold wp. cbn [loop].
    specialize (Hbody s w HI). unfold wp in Hbody.
    destruct (body s w) as [[s'|a] w'|why w']; auto.
    destruct Hbody as [HI' Hlt].
    apply (IH s' w' HI'). lia. }
  intros s w HI. apply (Hloop _ s w HI). lia.
Qed.

(** A loop reaches only states that satisfy an invariant of its passes. *)
Lemma reaches_invariant {S A} (body : S -> M (ctl S A))
  (I : S -> World -> Prop) s0 w0 :
  I s0 w0 ->
  (forall s w s' w', I s w -> body s w = Returned (Again s') w' -> I s' w') ->
  forall s w, reaches body s0 w0 s w -> I s w.
Proof.
  intros H0 Hstep s w Hr. induction Hr; eauto.
Qed.

(* ------------------------------------------------------------------ *)
(** ** Worlds only grow *)

Lemma grows_refl P w : grows P w w.
Proof.
  split; [exists [] | exists [] | exists []]; cbn;
    rewrite ?app_nil_r; auto.
Qed.

Lemma grows_trans P w1 w2 w3 : grows P w1 w2 -> grows P w2 w3 -> grows P w1 w3.
Proof.
  intros [[u1 Hu1] [n1 [Hn1 Hp1]] [m1 Hm1]] [[u2 Hu2] [n2 [Hn2 Hp2]] [m2 Hm2]].
  split.
  - exists (u1 ++ u2)%list. rewrite Hu1, Hu2. apply app_assoc.
  - exists (n1 ++ n2)%list. split.
    + rewrite Hn2, Hn1. symmetry. apply app_assoc.
    + rewrite forallb_app, Hp1, Hp2. reflexivity.
  - exists (m1 ++ m2)%list. rewrite Hm2, Hm1. symmetry. apply app_assoc.
Qed.

Lemma grows_log P e w : P e = true -> grows P w (log e w).
Proof.
  intros He. split; cbn.
  - now exists [].
  - exists [e]. cbn. now rewrite He.
  - exists []. now rewrite app_nil_r.
Qed.

Lemma grows_read P prompt line rest w :
  stdin w = line :: rest ->
  P (EvInput prompt line) = true ->
  grows P w (mkWorld rest (trace w ++ [EvInput prompt line]) (saved_passwords w)).
Proof.
  intros Hin He. split; cbn.
  - now exists [line].
  - exists [EvInput prompt line]. cbn. now rewrite He.
  - exists []. now rewrite app_nil_r.
Qed.

Lemma grows_length P w w' :
  grows P w w' -> (List.length (stdin w') <= List.length (stdin w))%nat.
Proof.
  intros [[used Hu] _ _]. rewrite Hu, length_app. lia.
Qed.

Lemma grows_weaken (P P' : event -> bool) w w' :
  (forall e, P e = true -> P' e = true) -> grows P w w' -> grows P' w w'.
Proof.
  intros HP [Hs [new [Hn Hp]] Hm]. split; auto.
  exists new. split; auto.
  rewrite forallb_forall in *. auto.
Qed.

Section Tame.

Variable P : event -> bool.

Lemma tame_ret {A} (a : A) : tame P (ret a).
Proof. intros w. apply grows_refl. Qed.

Lemma tame_bind {A B} (m : M A) (f : A -> M B) :
  tame P m -> (forall a, tame P (f a)) -> tame P (bind m f).
Proof.
  intros Hm Hf w. apply wp_bind.
  eapply wp_mono; [apply Hm | | auto].
  intros a w' Hg. cbn beta in Hg |- *.
  eapply wp_mono; [apply Hf | |]; cbn beta.
  - intros _ w'' Hg'. eapply grows_trans; eauto.
  - intros why w'' [Hw Hg']. split; auto. eapply grows_trans; eauto.
Qed.

Lemma reading_tame {A} (m : M A) : reading P m -> tame P m.
Proof.
  intros Hm w. eapply wp_mono; [apply Hm | |]; cbn beta; tauto.
Qed.

Lemma reading_bind_l {A B} (m : M A) (f : A -> M B) :
  reading P m -> (forall a, tame P (f a)) -> reading P (bind m f).
Proof.
  intros Hm Hf w. apply wp_bind.
  eapply wp_mono; [apply Hm | | auto].
  intros a w' [Hg Hlt]. cbn beta.
  eapply wp_mono; [apply Hf | |]; cbn beta.
  - intros _ w'' Hg'. split; [eapply grows_trans; eauto|].
    apply grows_length in Hg'. lia.
  - intros why w'' [Hw Hg']. split; auto. eapply grows_trans; eauto.
Qed.

Lemma reading_bind_r {A B} (m : M A) (f : A -> M B) :
  tame P m -> (forall a, reading P (f a)) -> reading P (bind m f).
Proof.
  intros Hm Hf w. apply wp_bind.
  eapply wp_mono; [apply Hm | | auto].
  intros a w' Hg. cbn beta in Hg |- *.
  eapply wp_mono; [apply Hf | |]; cbn beta.
  - intros _ w'' [Hg' Hlt]. split; [eapply grows_trans; eauto|].
    apply grows_length in Hg. lia.
  - intros why w'' [Hw Hg']. split; auto. eapply grows_trans; eauto.
Qed.

Lemma tame_print text : P (EvPrint text) = true -> tame P (print text).
Proof. intros He w. apply wp_print, grows_log, He. Qed.

Lemma reading_input prompt :
  (forall line, P (EvInput prompt line) = true) -> reading P (input prompt).
Proof.
  intros He w. apply wp_input.
  - intros _. split; [discriminate | apply grows_refl].
  - intros line rest Hin. split.
    + apply grows_read; auto.
    + rewrite Hin. cbn. lia.
Qed.

Lemma reading_input_strip prompt :
  (forall line, P (EvInput prompt line) = true) ->
  reading P (input_strip prompt).
Proof.
  intros He. unfold input_strip.
  apply reading_bind_l; [now apply reading_input | intros; apply tame_ret].
Qed.

Lemma tame_exit_program {A} : tame P (@exit_program A).
Proof. intros w. split; [discriminate | apply grows_refl]. Qed.

Lemma tame_raise {A} e : tame P (@raise A e).
Proof. intros w. split; [discriminate | apply grows_refl]. Qed.

Lemma tame_py_int s : tame P (py_int s).
Proof.
  unfold py_int. destruct (int s); [apply tame_ret | apply tame_raise].
Qed.

Lemma tame_while_true {S A} (body : S -> M (ctl S A)) s :
  (forall s, reading P (body s)) -> tame P (while_true body s).
Proof.
  intros Hbody w.
  apply (wp_while_true body (fun _ w' => grows P w w')); [|apply grows_refl].
  intros s1 w1 Hg. cbn beta in Hg.
  eapply wp_mono; [apply Hbody | |]; cbn beta.
  - intros [s2|a] w2 [Hg' Hlt]; [split; auto|]; eapply grows_trans; eauto.
  - intros why w2 [Hw Hg']. split; auto. eapply grows_trans; eauto.
Qed.

Lemma tame_weaken (P' : event -> bool) {A} (m : M A) :
  (forall e, P' e = true -> P e = true) -> tame P' m -> tame P m.
Proof.
  intros HP Hm w.
  eapply wp_mono; [apply Hm | |]; cbn beta.
  - intros _ w'. now apply grows_weaken.
  - intros why w' [Hw Hg]. split; auto. revert Hg. now apply grows_weaken.
Qed.

End Tame.

Create HintDb tame discriminated.

#[local] Hint Resolve tame_ret tame_print tame_exit_program tame_raise
  tame_py_int reading_input reading_input_strip reading_tame : tame.
#[local] Hint Extern 1 (_ = true) => reflexivity : tame.
#[local] Hint Extern 2 (forall _ : string, _ = true) => intro; reflexivity : tame.

(** One step through a call: split a sequence, a test or a tuple, or close
    a call that is already known. *)
Ltac tame_step :=
  match goal with
  | |- tame _ (bind _ _) => apply tame_bind; [|intros]
  | |- reading _ (bind _ _) =>
      first [ apply reading_bind_l; [solve [auto with tame] | intros]
            | apply reading_bind_r; [solve [auto with tame] | intros] ]
  | |- tame _ (if ?b then _ else _) => destruct b
  | |- reading _ (if ?b then _ else _) => destruct b
  | |- tame _ (match ?x with _ => _ end) => destruct x
  | |- reading _ (match ?x with _ => _ end) => destruct x
  | |- tame _ _ => solve [auto with tame]
  | |- reading _ _ => solve [auto with tame]
  end.

Ltac tame_all := intros; cbv beta zeta; repeat (tame_step; cbv beta zeta).

(** Run the plain steps of a call in a world that is known. *)
Ltac run :=
  cbv beta iota zeta delta
    [bind print input_strip input ret log exit_program py_int raise
     stdin trace saved_passwords];
  cbn [negb andb orb].

Section TameProgram.

Variable env : Env.

Lemma tame_attempt_login username password :
  tame any_event (attempt_login env username password).
Proof.
  intros w. unfold wp, attempt_login.
  destruct (login_service env (trace w) username password);
    first [ now apply grows_log
          | split; [discriminate | now apply grows_log] ].
Qed.

Lemma reading_run_login_screen_body s :
  reading any_event (run_login_screen_body env s).
Proof.
  pose proof tame_attempt_login.
  unfold run_login_screen_body. tame_all.
Qed.

Lemma tame_run_login_screen : tame any_event (run_login_screen env).
Proof. apply tame_while_true, reading_run_login_screen_body. Qed.

Lemma tame_save_generated_password P pwd length ul uu ud us :
  tame P (save_generated_password pwd length ul uu ud us).
Proof.
  intros w. split; cbn.
  - now exists [].
  - exists []. now rewrite app_nil_r.
  - now eexists.
Qed.

Lemma tame_export_saved_passwords filename :
  tame after_login (export_saved_passwords env filename).
Proof.
  intros w. unfold wp, export_saved_passwords.
  destruct (export_service env (trace w) filename (saved_passwords w));
    now apply grows_log.
Qed.

Lemma tame_len_saved_passwords P : tame P len_saved_passwords.
Proof. intros w. apply grows_refl. Qed.

Lemma tame_random_choices population k :
  tame after_login (random_choices env population k).
Proof.
  intros w. unfold wp, random_choices.
  destruct (draw_from population (random_draw env (trace w)) 0 (Z.to_nat k)).
  - now apply grows_log.
  - split; [discriminate | now apply grows_log].
Qed.

#[local] Hint Resolve tame_save_generated_password
  tame_export_saved_passwords tame_len_saved_passwords
  tame_random_choices : tame.

Lemma tame_run_export_screen : tame after_login (run_export_screen env).
Proof. unfold run_export_screen. tame_all. Qed.

Lemma tame_show_welcome : tame after_login show_welcome.
Proof. unfold show_welcome. tame_all. Qed.

Lemma reading_run_main_menu length types_set :
  reading after_login (run_main_menu length types_set).
Proof. unfold run_main_menu. tame_all. Qed.

Lemma reading_do_set_length current_length :
  reading after_login (do_set_length current_length).
Proof. unfold do_set_length. tame_all. Qed.

Lemma reading_do_character_types_body flags :
  reading after_login (do_character_types_body flags).
Proof.
  destruct flags as [[[use_lower use_upper] use_digit] use_symbol].
  unfold do_character_types_body. tame_all.
Qed.

Lemma tame_do_character_types ul uu ud us :
  tame after_login (do_character_types ul uu ud us).
Proof. apply tame_while_true, reading_do_character_types_body. Qed.

#[local] Hint Resolve tame_run_export_screen tame_show_welcome
  reading_run_main_menu reading_do_set_length tame_do_character_types : tame.

Lemma reading_run_settings_body s :
  reading after_login (run_settings_body s).
Proof.
  destruct s as [[[[[length types_set] ul] uu] ud] us].
  unfold run_settings_body. tame_all.
Qed.

Lemma tame_run_settings length types_set ul uu ud us :
  tame after_login (run_settings length types_set ul uu ud us).
Proof. apply tame_while_true, reading_run_settings_body. Qed.

Lemma tame_generate_password length ul uu ud us :
  tame after_login (generate_password env length ul uu ud us).
Proof. unfold generate_password. tame_all. Qed.

#[local] Hint Resolve tame_run_settings tame_generate_password : tame.

Lemma reading_run_generate_screen_body length types_set ul uu ud us s :
  reading after_login
    (run_generate_screen_body env length types_set ul uu ud us s).
Proof. unfold run_generate_screen_body. tame_all. Qed.

Lemma tame_run_generate_screen length types_set ul uu ud us :
  tame after_login (run_generate_screen env length types_set ul uu ud us).
Proof. apply tame_while_true, reading_run_generate_screen_body. Qed.

Lemma tame_show_settings_required_message :
  tame after_login show_settings_required_message.
Proof. unfold show_settings_required_message. tame_all. Qed.

Lemma tame_show_quickstart_help : tame after_login show_quickstart_help.
Proof. unfold show_quickstart_help. tame_all. Qed.

Lemma tame_show_length_help : tame after_login show_length_help.
Proof. unfold show_length_help. tame_all. Qed.

Lemma tame_show_character_types_help :
  tame after_login show_character_types_help.
Proof. unfold show_character_types_help. tame_all. Qed.

#[local] Hint Resolve tame_run_generate_screen
  tame_show_settings_required_message tame_show_quickstart_help
  tame_show_length_help tame_show_character_types_help : tame.

Lemma reading_run_help_menu_body s :
  reading after_login (run_help_menu_body s).
Proof. unfold run_help_menu_body. tame_all. Qed.

Lemma tame_run_help_menu : tame after_login run_help_menu.
Proof. apply tame_while_true, reading_run_help_menu_body. Qed.

#[local] Hint Resolve tame_run_help_menu : tame.

Lemma reading_main_body s : reading after_login (main_body env s).
Proof.
  destruct s as [[[[[length types_set] ul] uu] ud] us].
  unfold main_body. tame_all.
Qed.

(** The loop of main, from any values of its variables. *)
Lemma tame_main_loop s : tame after_login (while_true (main_body env) s).
Proof. apply tame_while_true, reading_main_body. Qed.

End TameProgram.

(* ================================================================== *)
(** * Generation *)

Lemma length_join l : String.length (join l) = List.length l.
Proof. unfold join. induction l as [|c l IH]; cbn; congruence. Qed.

Lemma chars_join l : chars (join l) = l.
Proof. apply list_ascii_of_string_of_list_ascii. Qed.

Lemma draw_from_nonempty population draw :
  population <> [] ->
  forall count i,
  exists picked,
    draw_from population draw i count = Some picked /\
    List.length picked = count /\
    Forall (fun c => In c population) picked.
Proof.
  intros Hne. induction count as [|count IH]; intros i.
  - exists []. cbn. auto.
  - cbn [draw_from].
    destruct (List.length population) as [|n] eqn:Hn.
    { destruct population; [congruence | discriminate]. }
    assert (Hlt : (Nat.modulo (draw i) (Datatypes.S n) < Datatypes.S n)%nat)
      by (apply Nat.mod_upper_bound; discriminate).
    destruct (nth_error population (Nat.modulo (draw i) (Datatypes.S n)))
      as [c|] eqn:Hnth.
    + destruct (IH (Datatypes.S i)) as [rest [Hrest [Hcount Hall]]].
      rewrite Hrest. exists (c :: rest). repeat split.
      * cbn. congruence.
      * constructor; [eapply nth_error_In; eauto | assumption].
    + apply nth_error_None in Hnth. lia.
Qed.

Lemma draw_from_empty draw i count :
  draw_from [] draw i (Datatypes.S count) = None.
Proof. reflexivity. Qed.

Lemma build_pool_nonempty ul uu ud us :
  ul || uu || ud || us = true -> build_pool ul uu ud us <> [].
Proof. destruct ul, uu, ud, us; cbn; discriminate. Qed.

Lemma build_pool_classes ul uu ud us c :
  In c (build_pool ul uu ud us) -> in_enabled_class ul uu ud us c = true.
Proof.
  destruct ul, uu, ud, us; cbn; intros H;
    repeat (destruct H as [<-|H]; [reflexivity|]); destruct H.
Qed.

(** C2. For a length between 1 and 100 and at least one character type
    switched on, [generate_password] returns a string of exactly that many
    characters, each of them taken from the pool, hence of a class that is
    switched on; the pool is a-z, then A-Z, then 0-9, then the 30 symbols,
    each part present when its flag is set. *)
Theorem generate_password_in_pool env w length ul uu ud us :
  1 <= length <= 100 ->
  ul || uu || ud || us = true ->
  exists pwd,
    generate_password env length ul uu ud us w
    = Returned pwd (log (EvChoices (build_pool ul uu ud us) length) w) /\
    Z.of_nat (String.length pwd) = length /\
    (forall c, In c (chars pwd) ->
               In c (build_pool ul uu ud us) /\
               in_enabled_class ul uu ud us c = true) /\
    build_pool ul uu ud us
    = ((if ul then chars "abcdefghijklmnopqrstuvwxyz" else []) ++
       (if uu then chars "ABCDEFGHIJKLMNOPQRSTUVWXYZ" else []) ++
       (if ud then chars "0123456789" else []) ++
       (if us then chars symbol_set else []))%list /\
    List.length (chars symbol_set) = 30%nat.
Proof.
  intros Hlen Hflag.
  destruct (draw_from_nonempty (build_pool ul uu ud us)
              (random_draw env (trace w)) (build_pool_nonempty _ _ _ _ Hflag)
              (Z.to_nat length) O) as [picked [Hdraw [Hcount Hall]]].
  exists (join picked). repeat split.
  - unfold generate_password, bind, random_choices. now rewrite Hdraw.
  - rewrite length_join, Hcount. lia.
  - rewrite chars_join in H. rewrite Forall_forall in Hall. auto.
  - rewrite chars_join in H. rewrite Forall_forall in Hall.
    apply build_pool_classes. auto.
  - destruct ul, uu, ud, us; reflexivity.
Qed.

Lemma generate_password_in_pool_witness :
  exists pwd,
    generate_password env_ok 8 true true true false (start [])
    = Returned pwd
        (log (EvChoices (build_pool true true true false) 8) (start [])) /\
    Z.of_nat (String.length pwd) = 8.
Proof.
  destruct (generate_password_in_pool env_ok (start []) 8 true true true false)
    as [pwd [Hret [Hlen _]]]; [lia | reflexivity |].
  exists pwd. split; assumption.
Defined.

(** C10. With the four character types switched off the pool is empty, and
    for a length of at least 1 [generate_password] does not return: the
    first draw raises IndexError. With a type switched on it returns. *)
Theorem generate_password_empty_pool env w length ul uu ud us :
  1 <= length ->
  (ul || uu || ud || us = false ->
   build_pool ul uu ud us = [] /\
   generate_password env length ul uu ud us w
   = Stopped (Uncaught IndexError) (log (EvChoices [] length) w)) /\
  (ul || uu || ud || us = true ->
   exists pwd w',
     generate_password env length ul uu ud us w = Returned pwd w').
Proof.
  intros Hlen. split; intros Hflag.
  - destruct ul, uu, ud, us; try discriminate. split; [reflexivity|].
    unfold generate_password, bind, random_choices. cbn [build_pool].
    destruct (Z.to_nat length) as [|k] eqn:Hk; [lia|].
    now rewrite draw_from_empty.
  - destruct (draw_from_nonempty (build_pool ul uu ud us)
                (random_draw env (trace w)) (build_pool_nonempty _ _ _ _ Hflag)
                (Z.to_nat length) O) as [picked [Hdraw _]].
    exists (join picked), (log (EvChoices (build_pool ul uu ud us) length) w).
    unfold generate_password, bind, random_choices. now rewrite Hdraw.
Qed.

Lemma generate_password_empty_pool_witness :
  generate_password env_ok 1 false false false false (start [])
  = Stopped (Uncaught IndexError) (log (EvChoices [] 1) (start [])).
Proof.
  destruct (generate_password_empty_pool env_ok (start []) 1
              false false false false) as [Hnone _]; [lia|].
  destruct Hnone as [_ Hstop]; [reflexivity|].
  exact Hstop.
Defined.

(* ================================================================== *)
(** * Setting the length *)

Lemma char_in_digits c : char_in c "0123456789" = is_digit c.
Proof.
  destruct c as [b0 b1 b2 b3 b4 b5 b6 b7].
  destruct b0, b1, b2, b3, b4, b5, b6, b7; reflexivity.
Qed.

Lemma is_number_all_digits s : is_number s = all_digits s.
Proof.
  unfold all_digits.
  induction s as [|c s IH]; [reflexivity|].
  cbn [is_number chars list_ascii_of_string forallb].
  rewrite char_in_digits. unfold chars in IH. rewrite IH.
  now destruct (is_digit c).
Qed.

(** C3, as amended. With the lines for the length, the confirmation and
    the return to the settings typed, and a length line that, when it is
    made of digits only, has no more of them than [int] converts,
    [do_set_length] returns: the previous length when the stripped length
    line is empty, has a character that is not a digit, or is a number
    outside 5..100, or is a number below 10 and the answer, stripped and in
    lower case, is not y; the number typed in every other case. *)
Theorem do_set_length_amended current w raw answer enter rest :
  stdin w = raw :: answer :: enter :: rest ->
  (all_digits (strip raw) = true ->
   (String.length (strip raw) <= max_str_digits)%nat) ->
  exists w',
    do_set_length current w = Returned (length_amended current raw answer) w'.
Proof.
  intros Hin Hdigits. destruct w as [lines tr sv]. cbn in Hin. subst lines.
  unfold do_set_length, length_amended. run.
  rewrite is_number_all_digits.
  destruct (strip raw =? "") eqn:Hraw; run; [eauto|].
  destruct (all_digits (strip raw)) eqn:Hnum; run; [|eauto].
  unfold int. apply Nat.ltb_ge in Hdigits; [|reflexivity].
  rewrite Hdigits. run.
  destruct ((int_value (strip raw) <? 5)%Z || (int_value (strip raw) >? 100)%Z)
    eqn:Hrange; run; [eauto|].
  destruct (int_value (strip raw) <? 10)%Z eqn:Hweak; run; [|eauto].
  destruct (lower (strip answer) =? "y") eqn:Hyes; run; eauto.
Qed.

Lemma do_set_length_amended_witness :
  exists w', do_set_length None (start ["7"; " Y "; ""]) = Returned (Some 7) w'.
Proof.
  refine (do_set_length_amended None (start ["7"; " Y "; ""]) "7" " Y " "" []
            eq_refl _).
  intros _. apply Nat.leb_le. vm_compute. reflexivity.
Defined.

(** C3, as it was stated, fails: the answer Y is not the character y, yet
    the length 7 is taken and the previous length is not kept. *)
Lemma do_set_length_takes_capital_Y :
  ~ (exists w',
        do_set_length None (start ["7"; "Y"; ""])
        = Returned (length_claimed None "7" "Y") w').
Proof.
  intros [w' Hw]. vm_compute in Hw. discriminate Hw.
Qed.

(* ================================================================== *)
(** * Character types *)

(** C9. A pass of the character-types screen on the choice 1, 2, 3 or 4
    goes round again with exactly the flag of that number flipped and the
    other three as they were; a second pass on the same choice gives the
    four flags their first values back. *)
Theorem toggle_flips_one_flag flags w line rest :
  stdin w = line :: rest ->
  In (strip line) ["1"; "2"; "3"; "4"] ->
  exists flags' w',
    do_character_types_body flags w = Returned (Again flags') w' /\
    stdin w' = rest /\
    changed flags flags'
    = [strip line =? "1"; strip line =? "2";
       strip line =? "3"; strip line =? "4"] /\
    forall line2 rest2,
      rest = line2 :: rest2 ->
      strip line2 = strip line ->
      exists w'',
        do_character_types_body flags' w' = Returned (Again flags) w''.
Proof.
  intros Hin Hchoice.
  destruct flags as [[[ul uu] ud] us]. destruct w as [lines tr sv].
  cbn in Hin. subst lines.
  unfold do_character_types_body. run.
  destruct Hchoice as [H|[H|[H|[H|[]]]]]; rewrite <- H;
    cbn [String.eqb Ascii.eqb Bool.eqb]; run;
    (do 2 eexists; split; [reflexivity|]; split; [reflexivity|]; split;
     [destruct ul, uu, ud, us; reflexivity|]);
    intros line2 rest2 -> Hsame; run; rewrite Hsame;
    cbn [String.eqb Ascii.eqb Bool.eqb]; run;
    destruct ul, uu, ud, us; eexists; reflexivity.
Qed.

Lemma toggle_flips_one_flag_witness :
  exists flags' w',
    do_character_types_body (true, true, true, false) (start [" 3"; "3 "])
    = Returned (Again flags') w' /\
    changed (true, true, true, false) flags' = [false; false; true; false].
Proof.
  destruct (toggle_flips_one_flag (true, true, true, false)
              (start [" 3"; "3 "]) " 3" ["3 "] eq_refl)
    as [flags' [w' [Hpass [_ [Hchanged _]]]]].
  - cbn. auto.
  - exists flags', w'. split; assumption.
Defined.

(* ================================================================== *)
(** * Export *)

(** C6. With no record saved, the export screen prints that there is
    nothing to export, waits for Enter and returns; it sends nothing to the
    export service. *)
Theorem export_empty_history env w :
  saved_passwords w = [] ->
  let shown :=
    [EvPrint ""; EvPrint "Export Saved Passwords";
     EvPrint "There are no saved passwords to export yet."] in
  match stdin w with
  | [] =>
      run_export_screen env w
      = Stopped AwaitingInput (mkWorld [] (trace w ++ shown) [])
  | line :: rest =>
      run_export_screen env w
      = Returned tt
          (mkWorld rest
             (trace w ++ shown ++
              [EvInput (nl ++ "Press Enter to return to menu: ") line]) [])
  end.
Proof.
  intros Hempty. destruct w as [lines tr sv]. cbn in Hempty. subst sv.
  unfold run_export_screen, len_saved_passwords. run. cbn [List.length Nat.eqb].
  destruct lines as [|line rest]; run; rewrite <- !app_assoc; reflexivity.
Qed.

Lemma export_empty_history_witness :
  run_export_screen env_ok (start ["4"])
  = Returned tt
      (mkWorld []
         [EvPrint ""; EvPrint "Export Saved Passwords";
          EvPrint "There are no saved passwords to export yet.";
          EvInput (nl ++ "Press Enter to return to menu: ") "4"] []).
Proof.
  exact (export_empty_history env_ok (start ["4"]) eq_refl).
Defined.

(* ================================================================== *)
(** * Login *)

Lemma last_offender (P : event -> bool) pre e0 before e after :
  forallb P pre = true ->
  P e = false ->
  (before ++ e :: after = pre ++ [e0])%list ->
  after = [] /\ before = pre /\ e = e0.
Proof.
  revert before. induction pre as [|x pre IH]; intros before Hpre He Heq.
  - destruct before as [|y before]; cbn in Heq.
    + inversion Heq; auto.
    + inversion Heq. destruct before; discriminate.
  - cbn in Hpre. apply andb_prop in Hpre as [Hx Hpre].
    destruct before as [|y before]; cbn in Heq; inversion Heq; subst.
    + congruence.
    + destruct (IH before Hpre He H1) as [? [? ?]]. subst. auto.
Qed.

Lemma no_offender (P : event -> bool) before e after :
  forallb P (before ++ e :: after) = true -> P e = false -> False.
Proof.
  rewrite forallb_app. cbn. intros H He. rewrite He in H.
  rewrite andb_false_r in H. discriminate.
Qed.

Lemma after_login_not_blank e :
  after_login e = true -> not_blank_username e = true.
Proof.
  destruct e; cbn; auto. intros ->. reflexivity.
Qed.

Lemma grows_not_blank w w' :
  grows after_login w w' ->
  forallb not_blank_username (trace w) = true ->
  forallb not_blank_username (trace w') = true.
Proof.
  intros [_ [new [-> Hnew]] _] Hold.
  rewrite forallb_app, Hold. cbn.
  rewrite forallb_forall in *. auto using after_login_not_blank.
Qed.

(** What the login screen leaves in the trace: when it returns False the
    last event is a username line that is blank once stripped, and it is
    the only one; in every other case there is none. *)
Lemma login_screen_trace env w :
  forallb not_blank_username (trace w) = true ->
  wp (run_login_screen env)
     (fun logged_in w' =>
        if logged_in then forallb not_blank_username (trace w') = true
        else exists pre line,
            trace w' = (pre ++ [EvInput "Username: " line])%list /\
            strip line = "" /\
            forallb not_blank_username pre = true)
     (fun _ w' => forallb not_blank_username (trace w') = true) w.
Proof.
  intros Hstart.
  apply (wp_while_true (run_login_screen_body env)
           (fun _ w => forallb not_blank_username (trace w) = true));
    [|exact Hstart].
  clear w Hstart. intros s [lines tr sv] Hinv. cbn in Hinv.
  unfold wp, run_login_screen_body. run.
  destruct lines as [|l1 lines]; run.
  { rewrite !forallb_app, Hinv. reflexivity. }
  destruct (strip l1 =? "") eqn:Hblank; run.
  { apply String.eqb_eq in Hblank. do 2 eexists. split; [reflexivity|].
    split; [assumption|]. rewrite !forallb_app, Hinv. reflexivity. }
  destruct lines as [|l2 lines]; run.
  { rewrite !forallb_app, Hinv. cbn. now rewrite Hblank. }
  unfold attempt_login. run.
  match goal with
  | |- context [login_service ?e ?t ?u ?p] =>
      destruct (login_service e t u p) as [| | |data|]
  end; run;
    repeat match goal with
      | |- context [if ?b then _ else _] => destruct b; run
      end;
    rewrite !forallb_app, Hinv; cbn; rewrite Hblank;
    first [reflexivity | split; [reflexivity | lia]].
Qed.

(** What a whole run leaves in the trace. *)
Lemma main_trace env lines :
  wp (main env)
     (fun _ w' => forallb not_blank_username (trace w') = true)
     (fun why w' =>
        forallb not_blank_username (trace w') = true \/
        (why = SystemExit 0 /\
         exists pre line,
           trace w' = (pre ++ [EvInput "Username: " line])%list /\
           strip line = "" /\
           forallb not_blank_username pre = true))
     (start lines).
Proof.
  unfold main. apply wp_bind.
  eapply wp_mono; [apply tame_show_welcome | |]; cbn beta.
  2: { intros why w' [_ Hg]. left. now apply (grows_not_blank _ _ Hg). }
  intros _ w1 Hg1. pose proof (grows_not_blank _ _ Hg1 eq_refl) as Hnb1.
  apply wp_bind.
  eapply wp_mono; [apply login_screen_trace, Hnb1 | |]; cbn beta.
  2: { intros why w' Hnb. now left. }
  intros [|] w2 Hlogin; cbn [negb].
  - apply wp_bind, wp_ret, wp_bind. unfold wp at 1, new_saved_passwords.
    eapply wp_mono; [apply tame_main_loop | |]; cbn beta.
    + intros _ w3 Hg3. now apply (grows_not_blank _ _ Hg3).
    + intros why w3 [_ Hg3]. left. now apply (grows_not_blank _ _ Hg3).
  - apply wp_bind. unfold wp, exit_program. right. split; [reflexivity|].
    exact Hlogin.
Qed.

(** C7. In any run, a username line that is blank once stripped is the
    last thing that happens: the program ends there with SystemExit(0), so
    nothing is sent to the login service in that pass or later. *)
Theorem blank_username_ends_program env lines before line after :
  trace (final (main env (start lines)))
  = (before ++ EvInput "Username: " line :: after)%list ->
  strip line = "" ->
  after = [] /\
  main env (start lines)
  = Stopped (SystemExit 0) (final (main env (start lines))).
Proof.
  intros Htrace Hblank.
  assert (Hoff : not_blank_username (EvInput "Username: " line) = false)
    by (cbn; now rewrite Hblank).
  pose proof (main_trace env lines) as Hwp. unfold wp in Hwp.
  destruct (main env (start lines)) as [[] w'|why w']; cbn [final] in *.
  - rewrite Htrace in Hwp. destruct (no_offender _ _ _ _ Hwp Hoff).
  - destruct Hwp as [Hnb | [-> [pre [line0 [Hlast [_ Hpre]]]]]].
    + rewrite Htrace in Hnb. destruct (no_offender _ _ _ _ Hnb Hoff).
    + rewrite Hlast in Htrace. symmetry in Htrace.
      destruct (last_offender _ _ _ _ _ _ Hpre Hoff Htrace) as [-> _].
      split; reflexivity.
Qed.

Lemma blank_username_ends_program_witness :
  main env_ok (start [""; "  "])
  = Stopped (SystemExit 0) (final (main env_ok (start [""; "  "]))).
Proof.
  refine (proj2 (blank_username_ends_program env_ok [""; "  "]
                   (removelast (trace (final (main env_ok (start [""; "  "])))))
                   "  " [] _ _)).
  - vm_compute. reflexivity.
  - reflexivity.
Defined.

(* ================================================================== *)
(** * The length stays in range *)

Lemma wp_any {A} (m : M A) w : wp m (fun _ _ => True) (fun _ _ => True) w.
Proof. unfold wp. now destruct (m w). Qed.

(** The rule of a loop for a property of its local variables alone, with
    nothing said of the runs that do not return. *)
Lemma wp_while_true_safe {S A} (body : S -> M (ctl S A))
  (Inv : S -> Prop) (Q : A -> Prop) :
  (forall s w,
      Inv s ->
      wp (body s)
         (fun c _ => match c with Again s' => Inv s' | Return a => Q a end)
         (fun _ _ => True) w) ->
  forall s w,
    Inv s -> wp (while_true body s) (fun a _ => Q a) (fun _ _ => True) w.
Proof.
  intros Hbody.
  assert (Hloop : forall n s w,
             Inv s -> wp (loop n body s) (fun a _ => Q a) (fun _ _ => True) w).
  { induction n as [|n IH]; intros s w Hs; [exact I|].
    unfold wp. cbn [loop].
    specialize (Hbody s w Hs). unfold wp in Hbody.
    destruct (body s w) as [[s'|a] w'|why w']; auto.
    apply (IH s' w' Hbody). }
  intros s w Hs. apply (Hloop _ s w Hs).
Qed.

(** One step through a call under [wp]. *)
Ltac wp_step :=
  lazymatch goal with
  | |- wp (bind _ _) _ _ _ => apply wp_bind
  | |- wp (print _) _ _ _ => apply wp_print
  | |- wp (ret _) _ _ _ => apply wp_ret
  | |- wp (input_strip _) _ _ _ =>
      apply wp_input_strip; [intros _ | intros ? ? _]
  | |- wp (input _) _ _ _ => apply wp_input; [intros _ | intros ? ? _]
  | |- wp (if ?b then _ else _) _ _ _ => destruct b eqn:?
  | |- wp exit_program _ _ _ => unfold wp, exit_program
  | |- wp (py_int ?s) _ _ _ => unfold py_int; destruct (int s) eqn:?
  | |- wp (raise _) _ _ _ => unfold wp, raise
  end; cbn beta zeta.

Lemma do_set_length_ok current w :
  length_ok current ->
  wp (do_set_length current) (fun r _ => length_ok r) (fun _ _ => True) w.
Proof.
  intros Hcur. unfold do_set_length. cbn beta zeta.
  repeat wp_step; auto; cbn [length_ok];
    match goal with
    | H : _ || _ = false |- _ =>
        apply orb_false_iff in H; destruct H as [Hlo Hhi]
    end;
    rewrite Z.ltb_ge in Hlo; rewrite Z.gtb_ltb, Z.ltb_ge in Hhi; lia.
Qed.

Lemma run_settings_body_ok s w :
  length_ok (settings_length s) ->
  wp (run_settings_body s)
     (fun c _ =>
        match c with
        | Again s' => length_ok (settings_length s')
        | Return s' => length_ok (settings_length s')
        end)
     (fun _ _ => True) w.
Proof.
  destruct s as [[[[[length types_set] ul] uu] ud] us]. cbn [settings_length].
  intros Hlen. unfold run_settings_body.
  repeat wp_step; auto.
  - eapply wp_mono; [apply (do_set_length_ok _ _ Hlen) | | auto].
    intros r w' Hr. cbn beta. now apply wp_ret.
  - eapply wp_mono; [apply wp_any | | auto].
    intros [[[l u] d] sy] w' _. cbn beta iota. now apply wp_ret.
Qed.

Lemma run_settings_ok length types_set ul uu ud us w :
  length_ok length ->
  wp (run_settings length types_set ul uu ud us)
     (fun s' _ => length_ok (settings_length s')) (fun _ _ => True) w.
Proof.
  intros Hlen. unfold run_settings.
  apply (wp_while_true_safe run_settings_body
           (fun s => length_ok (settings_length s))
           (fun s => length_ok (settings_length s))); [|exact Hlen].
  intros s w0 Hs. now apply run_settings_body_ok.
Qed.

Lemma main_body_ok env s w :
  length_ok (settings_length s) ->
  wp (main_body env s)
     (fun c _ =>
        match c with
        | Again s' => length_ok (settings_length s')
        | Return _ => True
        end)
     (fun _ _ => True) w.
Proof.
  destruct s as [[[[[length types_set] ul] uu] ud] us]. cbn [settings_length].
  intros Hlen. unfold main_body.
  apply wp_bind. eapply wp_mono; [apply wp_any | | auto].
  intros choice w1 _. cbn beta.
  repeat wp_step; auto.
  - destruct length as [n|]; [destruct (negb types_set)|];
      (apply wp_bind; eapply wp_mono; [apply wp_any | | auto];
       intros; now apply wp_ret).
  - eapply wp_mono; [apply (run_settings_ok _ _ _ _ _ _ _ Hlen) | | auto].
    intros s' w' Hs'. cbn beta. now apply wp_ret.
  - eapply wp_mono; [apply wp_any | | auto]. intros; now apply wp_ret.
  - eapply wp_mono; [apply wp_any | | auto]. intros; now apply wp_ret.
Qed.

(** C8. The length is not set when the session starts, and in every state
    that the loop of main or the loop of the settings screen reaches it is
    not set or lies between 5 and 100; [do_set_length] and [run_settings]
    give back such a length when they are given one. *)
Theorem length_stays_in_range env :
  settings_length initial_settings = None /\
  (forall w0 s w,
      reaches (main_body env) initial_settings w0 s w ->
      length_ok (settings_length s)) /\
  (forall s0 w0 s w,
      length_ok (settings_length s0) ->
      reaches run_settings_body s0 w0 s w ->
      length_ok (settings_length s)) /\
  (forall current w r w',
      length_ok current ->
      do_set_length current w = Returned r w' ->
      length_ok r) /\
  (forall length types_set ul uu ud us w s' w',
      length_ok length ->
      run_settings length types_set ul uu ud us w = Returned s' w' ->
      length_ok (settings_length s')).
Proof.
  split; [reflexivity|]. split; [|split; [|split]].
  - intros w0 s w Hreach.
    refine (reaches_invariant (main_body env)
              (fun s _ => length_ok (settings_length s))
              initial_settings w0 I _ s w Hreach).
    intros s1 w1 s2 w2 Hs1 Hpass.
    exact (wp_returned _ _ _ _ _ _ (main_body_ok env s1 w1 Hs1) Hpass).
  - intros s0 w0 s w Hs0 Hreach.
    refine (reaches_invariant run_settings_body
              (fun s _ => length_ok (settings_length s))
              s0 w0 Hs0 _ s w Hreach).
    intros s1 w1 s2 w2 Hs1 Hpass.
    exact (wp_returned _ _ _ _ _ _ (run_settings_body_ok s1 w1 Hs1) Hpass).
  - intros current w r w' Hcur Hret.
    exact (wp_returned _ _ _ _ _ _ (do_set_length_ok current w Hcur) Hret).
  - intros length types_set ul uu ud us w s' w' Hlen Hret.
    exact (wp_returned _ _ _ _ _ _
             (run_settings_ok length types_set ul uu ud us w Hlen) Hret).
Qed.

Lemma length_stays_in_range_witness :
  length_ok (settings_length (Some 12, false, true, true, true, false)).
Proof.
  refine (proj1 (proj2 (length_stays_in_range env_ok))
            (start ["2"; "1"; "12"; "3"]) _
            (final (main_body env_ok initial_settings
                      (start ["2"; "1"; "12"; "3"]))) _).
  eapply reaches_pass; [apply reaches_entry|].
  vm_compute. reflexivity.
Defined.

(* ================================================================== *)
(** * The history of generated passwords *)

Lemma generate_screen_pass_saves env length types_set ul uu ud us s w :
  let saved_after :=
    saved_passwords
      (final (run_generate_screen_body env length types_set ul uu ud us s w)) in
  match generate_password env length ul uu ud us
          (before_generation length types_set w) with
  | Returned pwd _ =>
      saved_after
      = (saved_passwords w ++ [mkRecord pwd length ul uu ud us])%list
  | Stopped _ _ => saved_after = saved_passwords w
  end.
Proof.
  destruct w as [lines tr sv].
  unfold run_generate_screen_body, generate_password, before_generation,
    random_choices, save_generated_password.
  run.
  match goal with
  | |- context [draw_from ?p ?d ?i ?k] => destruct (draw_from p d i k)
  end; run; [|reflexivity].
  destruct lines as [|line rest]; run; [reflexivity|].
  repeat match goal with
    | |- context [if ?b then _ else _] => destruct b; run
    end; reflexivity.
Qed.

Lemma main_body_generates env n ul uu ud us w choice rest :
  stdin w = choice :: rest ->
  strip choice = "1" ->
  exists w1,
    stdin w1 = rest /\
    saved_passwords w1 = saved_passwords w /\
    main_body env (Some n, true, ul, uu, ud, us) w
    = bind (run_generate_screen env n true ul uu ud us)
        (fun _ => ret (Again (Some n, true, ul, uu, ud, us))) w1.
Proof.
  intros Hin Hchoice. destruct w as [lines tr sv]. cbn in Hin. subst lines.
  unfold main_body, run_main_menu. run. rewrite Hchoice.
  cbn [String.eqb Ascii.eqb Bool.eqb]. run.
  eexists. split; [|split]; [| |reflexivity]; reflexivity.
Qed.

(** The rule of a loop for an invariant of its variables and the world,
    with something said of the runs that do not return too. *)
Lemma wp_while_true_both {S A} (body : S -> M (ctl S A))
  (Inv : S -> World -> Prop) (Q : A -> World -> Prop)
  (E : stop -> World -> Prop) :
  (forall s w,
      Inv s w ->
      wp (body s)
         (fun c w' => match c with Again s' => Inv s' w' | Return a => Q a w' end)
         E w) ->
  (forall s w, Inv s w -> E OutOfBound w) ->
  forall s w, Inv s w -> wp (while_true body s) Q E w.
Proof.
  intros Hbody Hout.
  assert (Hloop : forall n s w, Inv s w -> wp (loop n body s) Q E w).
  { induction n as [|n IH]; intros s w Hs; [exact (Hout s w Hs)|].
    unfold wp. cbn [loop].
    specialize (Hbody s w Hs). unfold wp in Hbody.
    destruct (body s w) as [[s'|a] w'|why w']; auto.
    apply (IH s' w' Hbody). }
  intros s w Hs. apply (Hloop _ s w Hs).
Qed.

(** Whatever the generate screen does, the records it appends are one for
    each password it generated and showed, with the length and the flags
    it was called with. *)
Lemma run_generate_screen_records env n types_set ul uu ud us w :
  generated_into n ul uu ud us w
    (final (run_generate_screen env n types_set ul uu ud us w)).
Proof.
  assert (Hwp : wp (run_generate_screen env n types_set ul uu ud us)
                  (fun _ w' => generated_into n ul uu ud us w w')
                  (fun _ w' => generated_into n ul uu ud us w w') w).
  { unfold run_generate_screen.
    apply (wp_while_true_both
             (run_generate_screen_body env n types_set ul uu ud us)
             (fun _ w' =>
                exists more new,
                  saved_passwords w' = (saved_passwords w ++ more)%list /\
                  trace w' = (trace w ++ new)%list /\
                  Forall (made_with n ul uu ud us) more /\
                  forall tail,
                    shown_passwords (new ++ tail)
                    = (map rec_password more ++ shown_passwords tail)%list)).
    - intros s [lines tr1 sv1] [more [new [Hsv [Htr [Hmade Hshown]]]]].
      cbn in Hsv, Htr. subst tr1 sv1.
      assert (Hmade' : forall pwd,
                 Forall (made_with n ul uu ud us)
                   (more ++ [mkRecord pwd n ul uu ud us])).
      { intros pwd. apply Forall_app. split; [assumption|].
        repeat constructor. }
      unfold wp, run_generate_screen_body, generate_password, random_choices,
        save_generated_password.
      run.
      match goal with
      | |- context [draw_from ?p ?d ?i ?k] =>
          destruct (draw_from p d i k) as [picked|]
      end; run.
      + destruct lines as [|line lines]; run;
          repeat match goal with
            | |- context [if ?b then _ else _] => destruct b; run
            end;
          (exists (more ++ [mkRecord (join picked) n ul uu ud us])%list;
           eexists; cbn [saved_passwords trace];
           split; [now rewrite <- app_assoc|];
           split; [rewrite <- !app_assoc; cbn [app]; reflexivity|]);
          first [ split; [apply Hmade'|];
                  intros tail; rewrite <- app_assoc, Hshown;
                  cbn [app shown_passwords]; rewrite map_app, <- app_assoc;
                  reflexivity
                | split; [|apply Hmade'];
                  rewrite Hshown; cbn [app shown_passwords];
                  rewrite map_app; reflexivity ].
      + exists more. eexists. cbn [saved_passwords trace].
        split; [reflexivity|].
        split; [rewrite <- !app_assoc; cbn [app]; reflexivity|].
        split; [|assumption].
        rewrite Hshown. cbn [shown_passwords]. now rewrite app_nil_r.
    - intros s w0 [more [new [Hsv [Htr [Hmade Hshown]]]]].
      exists more, new. repeat split; auto.
      specialize (Hshown []). rewrite !app_nil_r in Hshown. auto.
    - exists [], []. rewrite !app_nil_r. repeat split; auto. }
  unfold wp in Hwp.
  destruct (run_generate_screen env n types_set ul uu ud us w); exact Hwp.
Qed.

Lemma final_then_ret {A B} (m : M A) (b : B) w :
  final (bind m (fun _ => ret b) w) = final (m w).
Proof. unfold bind, ret. now destruct (m w). Qed.

(** C5. [save_generated_password] appends one record, made of its
    arguments, to the end of the list. A pass of the generate screen in
    which the generation succeeds leaves the list one record longer, the
    record holding that password and the length and flags the screen was
    called with; a pass in which it fails leaves the list as it was.
    Whatever [run_generate_screen] as a whole does, the records it appends
    are one for each password it generated and showed, in that order and
    with that password, each with the length and the flags the screen was
    called with. On the choice 1 with the length and the types set, main
    calls the screen with the length and the flags it holds at that moment,
    so the records that this pass of main's loop appends hold them. The
    export request carries the list as it is then. Whatever a pass of
    main's loop or the whole loop does, the list it starts with is still
    there, in place, with any new records after it. *)
Theorem history_only_grows env :
  (forall pwd length ul uu ud us w,
      save_generated_password pwd length ul uu ud us w
      = Returned tt
          (mkWorld (stdin w) (trace w)
             (saved_passwords w ++ [mkRecord pwd length ul uu ud us]))) /\
  (forall length types_set ul uu ud us s w,
      let saved_after :=
        saved_passwords
          (final (run_generate_screen_body env length types_set
                    ul uu ud us s w)) in
      match generate_password env length ul uu ud us
              (before_generation length types_set w) with
      | Returned pwd _ =>
          saved_after
          = (saved_passwords w ++ [mkRecord pwd length ul uu ud us])%list
      | Stopped _ _ => saved_after = saved_passwords w
      end) /\
  (forall n types_set ul uu ud us w,
      generated_into n ul uu ud us w
        (final (run_generate_screen env n types_set ul uu ud us w))) /\
  (forall n ul uu ud us w choice rest,
      stdin w = choice :: rest ->
      strip choice = "1" ->
      exists w1,
        stdin w1 = rest /\
        saved_passwords w1 = saved_passwords w /\
        main_body env (Some n, true, ul, uu, ud, us) w
        = bind (run_generate_screen env n true ul uu ud us)
            (fun _ => ret (Again (Some n, true, ul, uu, ud, us))) w1) /\
  (forall n ul uu ud us w choice rest,
      stdin w = choice :: rest ->
      strip choice = "1" ->
      exists more,
        saved_passwords (final (main_body env (Some n, true, ul, uu, ud, us) w))
        = (saved_passwords w ++ more)%list /\
        Forall (made_with n ul uu ud us) more) /\
  (forall filename w,
      final (export_saved_passwords env filename w)
      = log (EvExportPost filename (saved_passwords w)) w) /\
  (forall s w,
      exists more,
        saved_passwords (final (main_body env s w))
        = (saved_passwords w ++ more)%list) /\
  (forall s w,
      exists more,
        saved_passwords (final (while_true (main_body env) s w))
        = (saved_passwords w ++ more)%list).
Proof.
  split; [reflexivity|]. split; [apply generate_screen_pass_saves|].
  split; [apply run_generate_screen_records|].
  split; [apply main_body_generates|].
  split.
  { intros n ul uu ud us w choice rest Hin Hchoice.
    destruct (main_body_generates env n ul uu ud us w choice rest Hin Hchoice)
      as [w1 [_ [Hsaved Hbody]]].
    rewrite Hbody, final_then_ret.
    destruct (run_generate_screen_records env n true ul uu ud us w1)
      as [more [new [Hmore [_ [_ Hmade]]]]].
    exists more. rewrite Hmore, Hsaved. auto. }
  split; [|split].
  - intros filename w. unfold export_saved_passwords.
    now destruct (export_service env (trace w) filename (saved_passwords w)).
  - intros s w.
    pose proof (reading_tame _ _ (reading_main_body env s) w) as Hwp.
    unfold wp in Hwp.
    destruct (main_body env s w) as [c w'|why w']; cbn [final].
    + apply Hwp.
    + apply Hwp.
  - intros s w.
    pose proof (tame_main_loop env s w) as Hwp. unfold wp in Hwp.
    destruct (while_true (main_body env) s w) as [c w'|why w']; cbn [final];
      apply Hwp.
Qed.

Lemma history_only_grows_witness :
  (exists w1,
      stdin w1 = ["2"] /\
      saved_passwords w1 = [] /\
      main_body env_ok (Some 12, true, true, true, true, false)
        (start [" 1"; "2"])
      = bind (run_generate_screen env_ok 12 true true true true false)
          (fun _ => ret (Again (Some 12, true, true, true, true, false))) w1) /\
  (exists more,
      saved_passwords
        (final (main_body env_ok (Some 12, true, true, false, false, false)
                  (start [" 1"; "1"; "2"])))
      = ([] ++ more)%list /\
      Forall (made_with 12 true false false false) more).
Proof.
  destruct (history_only_grows env_ok)
    as [_ [_ [_ [Hcall [Hmade _]]]]].
  split.
  - exact (Hcall 12 true true true false (start [" 1"; "2"]) " 1" ["2"]
             eq_refl eq_refl).
  - exact (Hmade 12 true false false false (start [" 1"; "1"; "2"])
             " 1" ["1"; "2"] eq_refl eq_refl).
Defined.

(* ================================================================== *)
(** * Whole runs *)

(** No run uses up the bound of a loop of the model: whatever is typed,
    main ends by SystemExit, by an exception, or waiting for a line. *)
Lemma main_finishes env lines w' :
  main env (start lines) <> Stopped OutOfBound w'.
Proof.
  assert (Hwp : wp (main env) (fun _ _ => True)
                  (fun why _ => why <> OutOfBound) (start lines)).
  { unfold main. apply wp_bind.
    eapply wp_mono; [apply tame_show_welcome | | cbn beta; tauto].
    intros _ w1 _. cbn beta. apply wp_bind.
    eapply wp_mono; [apply tame_run_login_screen | | cbn beta; tauto].
    intros logged_in w2 _. cbn beta. apply wp_bind.
    destruct logged_in; cbn [negb];
      [apply wp_ret | unfold wp, exit_program; discriminate].
    apply wp_bind. unfold wp at 1, new_saved_passwords.
    eapply wp_mono; [apply tame_main_loop | | cbn beta; tauto].
    auto. }
  unfold wp in Hwp. intros Hmain. rewrite Hmain in Hwp. now apply Hwp.
Qed.

(** C1 fails on the code. The session above reaches the generation with
    the length set and the types saved but no type switched on: the last
    thing the program does is to sample 12 characters from the empty
    pool. *)
Theorem generation_reached_with_no_type export draws :
  let env := mkEnv (fun _ _ _ => JsonObject [("status", "ok")]) export draws in
  build_pool false false false false = [] /\
  last (trace (final (main env (start script_no_type)))) (EvPrint "")
  = EvChoices (build_pool false false false false) 12.
Proof. split; vm_compute; reflexivity. Qed.

(** C4 fails on the code. The same session ends in an IndexError that
    nothing catches, not in SystemExit(0); no password was saved. *)
Theorem session_ends_in_index_error export draws :
  let env := mkEnv (fun _ _ _ => JsonObject [("status", "ok")]) export draws in
  exists w',
    main env (start script_no_type) = Stopped (Uncaught IndexError) w' /\
    stdin w' = [] /\ saved_passwords w' = [].
Proof. vm_compute. eexists. repeat split. Qed.

(* ================================================================== *)
(** * More on the login screen *)

(** X1. [attempt_login] sends one request, with the username and the
    password it was given. It raises AttributeError exactly when the body of
    the reply is JSON but not an object. When it returns, it returns ok only
    if the reply is an object whose status is ok; a request that fails, a
    body that is not JSON and an object without a status all give
    service_error. *)
Theorem attempt_login_outcome env username password w :
  let reply := login_service env (trace w) username password in
  let w' := log (EvLoginPost username password) w in
  ((reply = JsonNull \/ reply = JsonOther) <->
   attempt_login env username password w
   = Stopped (Uncaught AttributeError) w') /\
  (forall status w'',
      attempt_login env username password w = Returned status w'' ->
      w'' = w' /\
      (status = "ok" ->
       exists data,
         reply = JsonObject data /\ dict_get "status" data = Some "ok")) /\
  ((reply = NoResponse \/ reply = NotJson \/
    exists data, reply = JsonObject data /\ dict_get "status" data = None) ->
   attempt_login env username password w = Returned "service_error" w').
Proof.
  cbv zeta. unfold attempt_login.
  destruct (login_service env (trace w) username password) as [| | |data|];
    (split; [|split]).
  all: try (split; [intros [H|H]; discriminate H | intros H; discriminate H]).
  all: try (split; [reflexivity | intros [H|H]; discriminate H]).
  all: try (intros status w'' H; discriminate H).
  all: try (intros status w'' H; injection H as <- <-;
            split; [reflexivity | intros H; discriminate H]).
  all: try (intros _; reflexivity).
  all: try (intros [H|[H|[d [H _]]]]; discriminate H).
  all: try (split; [reflexivity | intros _; auto]).
  - intros status w'' H. injection H as <- <-. split; [reflexivity|].
    intros Hok. exists data. split; [reflexivity|].
    unfold dict_get_default in Hok.
    destruct (dict_get "status" data); [congruence | discriminate Hok].
  - intros [H|[H|[d [H Hnone]]]]; try discriminate H.
    injection H as <-. unfold dict_get_default. now rewrite Hnone.
Qed.

Lemma attempt_login_outcome_witness :
  exists data,
    login_service env_ok [] "alice" "secret" = JsonObject data /\
    dict_get "status" data = Some "ok".
Proof.
  destruct (attempt_login_outcome env_ok "alice" "secret" (start []))
    as [_ [Hok _]].
  exact (proj2 (Hok "ok" _ eq_refl) eq_refl).
Defined.

(** X2. A pass of the login screen on a username that is not blank sends
    one request, with the stripped username and password. When the body of
    the reply is JSON but not an object the pass ends there in an
    AttributeError. In every other case it prints one message and returns
    True when the status read from the reply is ok, and goes round again on
    any other status. It touches nothing else. *)
Theorem login_pass_grants_on_ok env w username password rest :
  stdin w = username :: password :: rest ->
  strip username <> "" ->
  let pre :=
    (trace w ++ login_heading ++
     [EvInput "Username: " username; EvInput "Password: " password])%list in
  let reply := login_service env pre (strip username) (strip password) in
  let sent :=
    (pre ++ [EvLoginPost (strip username) (strip password)])%list in
  match reply with
  | JsonNull | JsonOther =>
      run_login_screen_body env tt w
      = Stopped (Uncaught AttributeError)
          (mkWorld rest sent (saved_passwords w))
  | _ =>
      exists message,
        run_login_screen_body env tt w
        = Returned (if status_of reply =? "ok" then Return true else Again tt)
            (mkWorld rest (sent ++ [EvPrint message]) (saved_passwords w))
  end.
Proof.
  intros Hin Hname. destruct w as [lines tr sv]. cbn in Hin. subst lines.
  apply String.eqb_neq in Hname.
  unfold run_login_screen_body, attempt_login, login_heading. run.
  rewrite Hname. run. cbn [app].
  rewrite <- !app_assoc. cbn [app].
  match goal with
  | |- context [login_service ?e ?t ?u ?p] =>
      destruct (login_service e t u p) as [| | |data|]
  end; cbn [status_of]; run;
    repeat match goal with
      | |- context [if ?b then _ else _] => destruct b; run
      end;
    try eexists; rewrite <- !app_assoc; reflexivity.
Qed.

Lemma login_pass_grants_on_ok_witness :
  exists w',
    run_login_screen_body env_ok tt (start [" alice "; "secret"])
    = Returned (Return true) w'.
Proof.
  destruct (login_pass_grants_on_ok env_ok (start [" alice "; "secret"])
              " alice " "secret" [] eq_refl) as [message Hpass].
  - discriminate.
  - eexists. exact Hpass.
Defined.

Lemma no_menu_in (tr : list event) :
  forallb not_menu tr = true -> ~ In (EvPrint "Menu") tr.
Proof.
  intros Hall Hin. rewrite forallb_forall in Hall.
  specialize (Hall _ Hin). discriminate.
Qed.

Lemma granted_more env tr new : granted env tr -> granted env (tr ++ new).
Proof.
  intros [pre [u [p [post [-> Hok]]]]].
  exists pre, u, p, (post ++ new)%list. split; [|exact Hok].
  now rewrite <- app_assoc.
Qed.

(** What the login screen leaves in the trace: when it returns True a
    request was answered ok; in every other case the main menu has not
    been shown. *)
Lemma login_screen_grants env w :
  forallb not_menu (trace w) = true ->
  wp (run_login_screen env)
     (fun logged_in w' =>
        if logged_in then granted env (trace w')
        else forallb not_menu (trace w') = true)
     (fun _ w' => forallb not_menu (trace w') = true) w.
Proof.
  intros Hstart.
  apply (wp_while_true (run_login_screen_body env)
           (fun _ w => forallb not_menu (trace w) = true));
    [|exact Hstart].
  clear w Hstart. intros s [lines tr sv] Hinv. cbn in Hinv.
  unfold wp, run_login_screen_body. run.
  destruct lines as [|l1 lines]; run.
  { rewrite !forallb_app, Hinv. reflexivity. }
  destruct (strip l1 =? "") eqn:Hblank; run.
  { rewrite !forallb_app, Hinv. reflexivity. }
  destruct lines as [|l2 lines]; run.
  { rewrite !forallb_app, Hinv. reflexivity. }
  unfold attempt_login. run.
  match goal with
  | |- context [login_service ?e ?t ?u ?p] =>
      destruct (login_service e t u p) as [| | |data|] eqn:Hreply
  end; run; cbn [String.eqb Ascii.eqb Bool.eqb]; run.
  1, 2: split; [rewrite !forallb_app, Hinv; reflexivity | cbn; lia].
  1, 3: rewrite !forallb_app, Hinv; reflexivity.
  destruct (dict_get_default "status" "service_error" data =? "ok") eqn:Hok;
    run.
  - apply String.eqb_eq in Hok.
    eexists _, _, _, [_]. split; [rewrite <- app_assoc; reflexivity|].
    rewrite Hreply. exact Hok.
  - repeat match goal with
      | |- context [if ?b then _ else _] => destruct b; run
      end;
      (split; [rewrite !forallb_app, Hinv; reflexivity | cbn; lia]).
Qed.

(** X3. In any run, the main menu is shown only after a request to the
    login service was answered with the status ok. *)
Theorem menu_only_after_login env lines :
  In (EvPrint "Menu") (trace (final (main env (start lines)))) ->
  granted env (trace (final (main env (start lines)))).
Proof.
  assert (Hwp : wp (main env)
                  (fun _ w' =>
                     In (EvPrint "Menu") (trace w') -> granted env (trace w'))
                  (fun _ w' =>
                     In (EvPrint "Menu") (trace w') -> granted env (trace w'))
                  (start lines)).
  { unfold main. apply wp_bind.
    assert (Hwelcome :
             wp show_welcome
               (fun _ w' => forallb not_menu (trace w') = true)
               (fun _ w' => forallb not_menu (trace w') = true) (start lines)).
    { unfold wp, show_welcome, start. run.
      destruct lines; run; reflexivity. }
    eapply wp_mono; [exact Hwelcome | | ]; cbn beta.
    2: { intros why w' Hno Hin. destruct (no_menu_in _ Hno Hin). }
    intros _ w1 Hno1. apply wp_bind.
    eapply wp_mono; [apply login_screen_grants, Hno1 | |]; cbn beta.
    2: { intros why w' Hno Hin. destruct (no_menu_in _ Hno Hin). }
    intros [|] w2 Hlogin; cbn [negb].
    - apply wp_bind, wp_ret, wp_bind. unfold wp at 1, new_saved_passwords.
      eapply wp_mono; [apply tame_main_loop | |]; cbn beta.
      + intros _ w3 [_ [new [Hnew _]] _] _. cbn in Hnew. rewrite Hnew.
        now apply granted_more.
      + intros why w3 [_ [_ [new [Hnew _]] _]] _. cbn in Hnew. rewrite Hnew.
        now apply granted_more.
    - apply wp_bind. unfold wp, exit_program.
      intros Hin. destruct (no_menu_in _ Hlogin Hin). }
  unfold wp in Hwp.
  destruct (main env (start lines)) as [[] w'|why w']; exact Hwp.
Qed.

Lemma menu_only_after_login_witness :
  granted env_ok (trace (final (main env_ok (start [""; "alice"; "secret"])))).
Proof.
  apply menu_only_after_login. vm_compute. tauto.
Defined.

(* ================================================================== *)
(** * How the program stops *)

Lemma wp_conj {A} (m : M A) Q1 Q2 E1 E2 w :
  wp m Q1 E1 w ->
  wp m Q2 E2 w ->
  wp m (fun a w' => Q1 a w' /\ Q2 a w') (fun why w' => E1 why w' /\ E2 why w') w.
Proof. unfold wp. destruct (m w); auto. Qed.

Lemma draw_from_none population draw i count :
  draw_from population draw i count = None ->
  population = [] /\ count <> O.
Proof.
  intros Hnone. split.
  - destruct population as [|c population]; [reflexivity|].
    destruct (draw_from_nonempty (c :: population) draw) with (count := count)
      (i := i) as [picked [Hsome _]]; [discriminate|].
    congruence.
  - intros ->. discriminate Hnone.
Qed.

Section Clean.

Variable env : Env.

Lemma clean_ret {A} (a : A) : clean env (ret a).
Proof. intros w. exact I. Qed.

Lemma clean_bind {A B} (m : M A) (f : A -> M B) :
  clean env m -> (forall a, clean env (f a)) -> clean env (bind m f).
Proof.
  intros Hm Hf w. apply wp_bind.
  eapply wp_mono; [apply Hm | | auto].
  intros a w' _. apply Hf.
Qed.

Lemma clean_print text : clean env (print text).
Proof. intros w. exact I. Qed.

Lemma clean_input prompt : clean env (input prompt).
Proof. intros w. apply wp_input; cbn; auto. Qed.

Lemma clean_input_strip prompt : clean env (input_strip prompt).
Proof.
  unfold input_strip. apply clean_bind; [apply clean_input|].
  intros; apply clean_ret.
Qed.

Lemma clean_exit_program {A} : clean env (@exit_program A).
Proof. intros w. reflexivity. Qed.

Lemma clean_while_true P {S A} (body : S -> M (ctl S A)) s :
  (forall s, reading P (body s)) ->
  (forall s, clean env (body s)) ->
  clean env (while_true body s).
Proof.
  intros Hread Hclean w.
  apply (wp_while_true body (fun _ _ => True)); [|exact I].
  intros s1 w1 _.
  eapply wp_mono; [apply (wp_conj _ _ _ _ _ _ (Hread s1 w1) (Hclean s1 w1)) | |];
    cbn beta.
  - intros [s2|a] w2 [[_ Hlt] _]; auto.
  - intros why w2 [_ Hstop]. exact Hstop.
Qed.

End Clean.

Create HintDb clean discriminated.

#[local] Hint Resolve clean_ret clean_print clean_input clean_input_strip
  clean_exit_program : clean.

Ltac clean_step :=
  match goal with
  | |- clean _ (bind _ _) => apply clean_bind; [|intros]
  | |- clean _ (if ?b then _ else _) => destruct b
  | |- clean _ (match ?x with _ => _ end) => destruct x
  | |- clean _ _ => solve [auto with clean]
  end.

Ltac clean_all := intros; cbv beta zeta; repeat (clean_step; cbv beta zeta).

(** One step through a call under [wp], with what is known of the typed
    lines kept. *)
Ltac wp_step_lines :=
  lazymatch goal with
  | |- wp (bind _ _) _ _ _ => apply wp_bind
  | |- wp (print _) _ _ _ => apply wp_print
  | |- wp (ret _) _ _ _ => apply wp_ret
  | |- wp (input_strip _) _ _ _ =>
      apply wp_input_strip; [intros ? | intros ? ? ?]
  | |- wp (input _) _ _ _ => apply wp_input; [intros ? | intros ? ? ?]
  | |- wp (if ?b then _ else _) _ _ _ => destruct b eqn:?
  | |- wp (py_int ?s) _ _ _ => unfold py_int; destruct (int s) eqn:?
  | |- wp (raise _) _ _ _ => unfold wp, raise
  end; cbn beta zeta.

Section CleanProgram.

Variable env : Env.

Lemma clean_attempt_login username password :
  clean env (attempt_login env username password).
Proof.
  intros w. unfold wp, attempt_login.
  destruct (login_service env (trace w) username password) eqn:Hreply;
    try exact I;
    (exists (trace w); left; exists username, password;
     split; [reflexivity | auto]).
Qed.

#[local] Hint Resolve clean_attempt_login : clean.

Lemma clean_run_login_screen_body s : clean env (run_login_screen_body env s).
Proof. unfold run_login_screen_body. clean_all. Qed.

Lemma clean_run_login_screen : clean env (run_login_screen env).
Proof.
  apply (clean_while_true env any_event).
  - apply reading_run_login_screen_body.
  - apply clean_run_login_screen_body.
Qed.

Lemma clean_save_generated_password pwd length ul uu ud us :
  clean env (save_generated_password pwd length ul uu ud us).
Proof. intros w. exact I. Qed.

Lemma clean_len_saved_passwords : clean env len_saved_passwords.
Proof. intros w. exact I. Qed.

Lemma clean_random_choices population k :
  clean env (random_choices env population k).
Proof.
  intros w. unfold wp, random_choices.
  destruct (draw_from population (random_draw env (trace w)) 0 (Z.to_nat k))
    eqn:Hdraw; [exact I|].
  apply draw_from_none in Hdraw as [-> Hk].
  exists (trace w), k. split; [reflexivity | lia].
Qed.

#[local] Hint Resolve clean_save_generated_password clean_len_saved_passwords
  clean_random_choices : clean.

Lemma clean_run_export_screen : clean env (run_export_screen env).
Proof.
  intros w. unfold run_export_screen.
  do 2 (apply wp_bind, wp_print). apply wp_bind.
  unfold wp at 1, len_saved_passwords.
  match goal with
  | |- wp (if ?b then _ else _) _ _ _ => destruct b
  end.
  { match goal with
    | |- wp ?m _ _ ?w0 =>
        assert (Hrest : clean env m) by clean_all; apply Hrest
    end. }
  apply wp_bind, wp_input_strip; [intros Hnil; exact Hnil|].
  intros line rest _. cbv beta zeta. apply wp_bind.
  unfold wp at 1, export_saved_passwords. cbv beta zeta.
  match goal with
  | |- context [export_service ?e ?t ?f ?d] =>
      destruct (export_service e t f d) eqn:Hreply
  end; cbv beta iota.
  5: { unfold wp, raise. eexists. right. do 2 eexists.
       split; [reflexivity | exact Hreply]. }
  all: match goal with
       | |- wp ?m _ _ ?w0 =>
           assert (Hrest : clean env m) by clean_all; apply Hrest
       end.
Qed.

Lemma clean_show_welcome : clean env show_welcome.
Proof. unfold show_welcome. clean_all. Qed.

Lemma clean_run_main_menu length types_set :
  clean env (run_main_menu length types_set).
Proof. unfold run_main_menu. clean_all. Qed.

Lemma clean_do_set_length current_length :
  clean env (do_set_length current_length).
Proof.
  intros w. unfold do_set_length. cbn beta zeta.
  repeat wp_step_lines; try exact I;
    try (cbn [clean_stop stdin log] in *; assumption).
  cbn [clean_stop trace log]. do 2 eexists. split; [reflexivity|].
  match goal with
  | H : negb (is_number _) = false |- _ => apply negb_false_iff in H
  end.
  split; [assumption|].
  match goal with
  | H : int _ = None |- _ => unfold int in H
  end.
  match goal with
  | H : (if ?b then _ else _) = None |- _ =>
      destruct b eqn:Hlong; [|discriminate H]
  end.
  now apply Nat.ltb_lt in Hlong.
Qed.

Lemma clean_do_character_types_body flags :
  clean env (do_character_types_body flags).
Proof.
  destruct flags as [[[use_lower use_upper] use_digit] use_symbol].
  unfold do_character_types_body. clean_all.
Qed.

Lemma clean_do_character_types ul uu ud us :
  clean env (do_character_types ul uu ud us).
Proof.
  apply (clean_while_true env after_login).
  - apply reading_do_character_types_body.
  - apply clean_do_character_types_body.
Qed.

#[local] Hint Resolve clean_run_export_screen clean_show_welcome
  clean_run_main_menu clean_do_set_length clean_do_character_types : clean.

Lemma clean_run_settings_body s : clean env (run_settings_body s).
Proof.
  destruct s as [[[[[length types_set] ul] uu] ud] us].
  unfold run_settings_body. clean_all.
Qed.

Lemma clean_run_settings length types_set ul uu ud us :
  clean env (run_settings length types_set ul uu ud us).
Proof.
  apply (clean_while_true env after_login).
  - apply reading_run_settings_body.
  - apply clean_run_settings_body.
Qed.

Lemma clean_generate_password length ul uu ud us :
  clean env (generate_password env length ul uu ud us).
Proof. unfold generate_password. clean_all. Qed.

#[local] Hint Resolve clean_run_settings clean_generate_password : clean.

Lemma clean_run_generate_screen_body length types_set ul uu ud us s :
  clean env (run_generate_screen_body env length types_set ul uu ud us s).
Proof. unfold run_generate_screen_body. clean_all. Qed.

Lemma clean_run_generate_screen length types_set ul uu ud us :
  clean env (run_generate_screen env length types_set ul uu ud us).
Proof.
  apply (clean_while_true env after_login).
  - apply reading_run_generate_screen_body.
  - apply clean_run_generate_screen_body.
Qed.

Lemma clean_show_settings_required_message :
  clean env show_settings_required_message.
Proof. unfold show_settings_required_message. clean_all. Qed.

Lemma clean_show_quickstart_help : clean env show_quickstart_help.
Proof. unfold show_quickstart_help. clean_all. Qed.

Lemma clean_show_length_help : clean env show_length_help.
Proof. unfold show_length_help. clean_all. Qed.

Lemma clean_show_character_types_help : clean env show_character_types_help.
Proof. unfold show_character_types_help. clean_all. Qed.

#[local] Hint Resolve clean_run_generate_screen
  clean_show_settings_required_message clean_show_quickstart_help
  clean_show_length_help clean_show_character_types_help : clean.

Lemma clean_run_help_menu_body s : clean env (run_help_menu_body s).
Proof. unfold run_help_menu_body. clean_all. Qed.

Lemma clean_run_help_menu : clean env run_help_menu.
Proof.
  apply (clean_while_true env after_login).
  - apply reading_run_help_menu_body.
  - apply clean_run_help_menu_body.
Qed.

#[local] Hint Resolve clean_run_help_menu : clean.

Lemma clean_main_body s : clean env (main_body env s).
Proof.
  destruct s as [[[[[length types_set] ul] uu] ud] us].
  unfold main_body. clean_all.
Qed.

(** A pass of main's loop never leaves the loop by a return. *)
Lemma main_body_goes_round s w :
  wp (main_body env s)
     (fun c _ => match c with Again _ => True | Return _ => False end)
     (fun _ _ => True) w.
Proof.
  destruct s as [[[[[length types_set] ul] uu] ud] us].
  unfold main_body.
  apply wp_bind. eapply wp_mono; [apply wp_any | | auto].
  intros choice w1 _. cbn beta.
  repeat wp_step; auto.
  - destruct length as [n|]; [destruct (negb types_set)|];
      (apply wp_bind; eapply wp_mono; [apply wp_any | | auto];
       intros; now apply wp_ret).
  - eapply wp_mono; [apply wp_any | | auto]. intros; now apply wp_ret.
  - eapply wp_mono; [apply wp_any | | auto]. intros; now apply wp_ret.
  - eapply wp_mono; [apply wp_any | | auto]. intros; now apply wp_ret.
Qed.

Lemma main_loop_stops s w :
  wp (while_true (main_body env) s) (fun _ _ => False) (clean_stop env) w.
Proof.
  apply (wp_while_true (main_body env) (fun _ _ => True)); [|exact I].
  intros s1 w1 _.
  eapply wp_mono;
    [apply (wp_conj _ _ _ _ _ _
              (wp_conj _ _ _ _ _ _ (reading_main_body env s1 w1)
                 (clean_main_body s1 w1))
              (main_body_goes_round s1 w1)) | |]; cbn beta.
  - intros [s2|a] w2 [[[_ Hlt] _] Hround]; auto.
  - intros why w2 [[_ Hstop] _]. exact Hstop.
Qed.

End CleanProgram.


(* ================================================================== *)
(** * What is saved and what is exported *)

Lemma world_ok_more lines lines' tr new saved :
  Forall event_ok new ->
  world_ok (mkWorld lines tr saved) ->
  world_ok (mkWorld lines' (tr ++ new) saved).
Proof.
  intros Hnew [Hsaved [Htrace Hshown]]. cbn in Hsaved, Htrace, Hshown.
  split; [|split]; cbn.
  - exact Hsaved.
  - apply Forall_app. auto.
  - eapply Forall_impl; [|exact Hshown]. cbn beta. intros r Hr.
    apply in_or_app. now left.
Qed.

Lemma world_ok_after w lines' new :
  Forall event_ok new ->
  world_ok w ->
  world_ok (mkWorld lines' (trace w ++ new) (saved_passwords w)).
Proof.
  destruct w as [lines tr saved]. cbn [stdin trace saved_passwords].
  apply world_ok_more.
Qed.

Lemma world_ok_log e w : event_ok e -> world_ok w -> world_ok (log e w).
Proof.
  intros He Hw. destruct w as [lines tr saved].
  unfold log. cbn [stdin trace saved_passwords].
  apply (world_ok_more lines); [repeat constructor; exact He | exact Hw].
Qed.

Lemma keeps_ret {A} (a : A) : keeps (ret a).
Proof. intros w Hw. exact Hw. Qed.

Lemma keeps_bind {A B} (m : M A) (f : A -> M B) :
  keeps m -> (forall a, keeps (f a)) -> keeps (bind m f).
Proof.
  intros Hm Hf w Hw. apply wp_bind.
  eapply wp_mono; [apply (Hm w Hw) | | auto].
  intros a w' Hw'. cbn beta in Hw' |- *. now apply Hf.
Qed.

Lemma keeps_print text : keeps (print text).
Proof. intros w Hw. apply wp_print. now apply world_ok_log. Qed.

Lemma keeps_input prompt : keeps (input prompt).
Proof.
  intros w Hw. apply wp_input; [auto|].
  intros line rest _. destruct w as [lines tr saved].
  cbn [stdin trace saved_passwords].
  apply (world_ok_more lines); [repeat constructor | exact Hw].
Qed.

Lemma keeps_input_strip prompt : keeps (input_strip prompt).
Proof.
  unfold input_strip. apply keeps_bind; [apply keeps_input|].
  intros; apply keeps_ret.
Qed.

Lemma keeps_exit_program {A} : keeps (@exit_program A).
Proof. intros w Hw. exact Hw. Qed.

Lemma keeps_raise {A} e : keeps (@raise A e).
Proof. intros w Hw. exact Hw. Qed.

Lemma keeps_py_int s : keeps (py_int s).
Proof.
  unfold py_int. destruct (int s); [apply keeps_ret | apply keeps_raise].
Qed.

Lemma keeps_while_true {S A} (body : S -> M (ctl S A)) s :
  (forall s, keeps (body s)) -> keeps (while_true body s).
Proof.
  intros Hbody w Hw.
  apply (wp_while_true_both body (fun _ w' => world_ok w')); auto.
  intros s1 w1 Hw1.
  eapply wp_mono; [apply (Hbody s1 w1 Hw1) | | auto].
  now intros [s2|a] w2 Hw2.
Qed.

Create HintDb keeps discriminated.

#[local] Hint Resolve keeps_ret keeps_print keeps_input keeps_input_strip
  keeps_exit_program keeps_raise keeps_py_int : keeps.

Ltac keeps_step :=
  match goal with
  | |- keeps (bind _ _) => apply keeps_bind; [|intros]
  | |- keeps (if ?b then _ else _) => destruct b
  | |- keeps (match ?x with _ => _ end) => destruct x
  | |- keeps _ => solve [auto with keeps]
  end.

Ltac keeps_all := intros; cbv beta zeta; repeat (keeps_step; cbv beta zeta).

Lemma draw_from_some population draw count :
  forall i picked,
    draw_from population draw i count = Some picked ->
    List.length picked = count /\ Forall (fun c => In c population) picked.
Proof.
  induction count as [|count IH]; intros i picked Hdraw; cbn [draw_from] in Hdraw.
  - injection Hdraw as <-. auto.
  - destruct (nth_error population _) as [c|] eqn:Hnth; [|discriminate].
    destruct (draw_from population draw (Datatypes.S i) count) as [rest|] eqn:Hrest;
      [|discriminate].
    injection Hdraw as <-. destruct (IH _ _ Hrest) as [Hlen Hall].
    split; [cbn; congruence|].
    constructor; [eapply nth_error_In; eauto | assumption].
Qed.

Section KeepsProgram.

Variable env : Env.

Lemma keeps_attempt_login username password :
  keeps (attempt_login env username password).
Proof.
  intros w Hw. unfold wp, attempt_login.
  destruct (login_service env (trace w) username password);
    now apply world_ok_log.
Qed.

Lemma keeps_len_saved_passwords : keeps len_saved_passwords.
Proof. intros w Hw. exact Hw. Qed.

#[local] Hint Resolve keeps_attempt_login keeps_len_saved_passwords : keeps.

Lemma keeps_run_login_screen : keeps (run_login_screen env).
Proof.
  apply keeps_while_true. intros s.
  unfold run_login_screen_body. keeps_all.
Qed.

Lemma keeps_show_welcome : keeps show_welcome.
Proof. unfold show_welcome. keeps_all. Qed.

Lemma keeps_run_main_menu length types_set :
  keeps (run_main_menu length types_set).
Proof. unfold run_main_menu. keeps_all. Qed.

Lemma keeps_do_set_length current_length : keeps (do_set_length current_length).
Proof. unfold do_set_length. keeps_all. Qed.

Lemma keeps_do_character_types ul uu ud us :
  keeps (do_character_types ul uu ud us).
Proof.
  apply keeps_while_true. intros [[[l u] d] s].
  unfold do_character_types_body. keeps_all.
Qed.

#[local] Hint Resolve keeps_show_welcome keeps_run_main_menu
  keeps_do_set_length keeps_do_character_types : keeps.

Lemma keeps_run_settings length types_set ul uu ud us :
  keeps (run_settings length types_set ul uu ud us).
Proof.
  apply keeps_while_true. intros [[[[[l t] a] b] c] d].
  unfold run_settings_body. keeps_all.
Qed.

Lemma keeps_show_settings_required_message :
  keeps show_settings_required_message.
Proof. unfold show_settings_required_message. keeps_all. Qed.

Lemma keeps_run_help_menu : keeps run_help_menu.
Proof.
  apply keeps_while_true. intros s.
  unfold run_help_menu_body, show_quickstart_help, show_length_help,
    show_character_types_help.
  keeps_all.
Qed.

(** The password that [generate_password] returns has the length asked
    for and characters of the classes switched on. *)
Lemma generate_password_result n ul uu ud us w :
  world_ok w ->
  0 <= n ->
  wp (generate_password env n ul uu ud us)
     (fun pwd w' =>
        world_ok w' /\
        Z.of_nat (String.length pwd) = n /\
        forallb (in_enabled_class ul uu ud us) (chars pwd) = true)
     (fun _ w' => world_ok w') w.
Proof.
  intros Hw Hn. unfold wp, generate_password, bind, random_choices.
  destruct (draw_from (build_pool ul uu ud us) (random_draw env (trace w)) 0
              (Z.to_nat n)) as [picked|] eqn:Hdraw; cbn [ret].
  - apply draw_from_some in Hdraw as [Hlen Hall].
    split; [apply world_ok_log; [exact I | exact Hw]|].
    split; [rewrite length_join, Hlen; lia|].
    rewrite chars_join. apply forallb_forall. intros c Hc.
    rewrite Forall_forall in Hall. apply build_pool_classes. auto.
  - apply world_ok_log; [exact I | exact Hw].
Qed.

Lemma keeps_run_generate_screen n types_set ul uu ud us :
  5 <= n <= 100 ->
  keeps (run_generate_screen env n types_set ul uu ud us).
Proof.
  intros Hn. apply keeps_while_true. intros s w Hw.
  unfold run_generate_screen_body.
  do 3 (apply wp_bind, wp_print). apply wp_bind.
  eapply wp_mono; [apply generate_password_result | | auto].
  - repeat apply world_ok_log; auto; exact I.
  - lia.
  - intros pwd w1 [Hw1 [Hlen Hclass]]. cbn beta.
    apply wp_bind, wp_print. apply wp_bind.
    unfold wp at 1, save_generated_password.
    match goal with
    | |- wp ?m _ _ _ => assert (Hrest : keeps m) by keeps_all; apply Hrest
    end.
    destruct Hw1 as [Hsaved [Htrace Hshown]]. split; [|split]; cbn.
    + apply Forall_app. split; [assumption|].
      repeat constructor; cbn; (lia || assumption).
    + apply Forall_app. split; [assumption|]. repeat constructor.
    + apply Forall_app. split.
      * eapply Forall_impl; [|exact Hshown]. cbn beta. intros r Hr.
        apply in_or_app. now left.
      * repeat constructor. cbn. apply in_or_app. right. now left.
Qed.

Lemma keeps_run_export_screen : keeps (run_export_screen env).
Proof.
  intros w Hw. unfold run_export_screen.
  do 2 (apply wp_bind, wp_print). apply wp_bind.
  unfold wp at 1, len_saved_passwords.
  assert (Hw2 : world_ok (log (EvPrint "Export Saved Passwords")
                            (log (EvPrint "") w)))
    by (repeat apply world_ok_log; auto; exact I).
  cbn [saved_passwords log].
  destruct (saved_passwords w) as [|r saved] eqn:Hsaved; cbn [List.length Nat.eqb].
  - match goal with
    | |- wp ?m _ _ _ => assert (Hrest : keeps m) by keeps_all; apply Hrest
    end. exact Hw2.
  - apply wp_bind, wp_input_strip; [intros _; exact Hw2|].
    intros line rest _. cbv beta zeta. apply wp_bind.
    unfold wp at 1, export_saved_passwords. cbv beta zeta.
    cbn [saved_passwords trace log].
    assert (Hsent : world_ok
              (log (EvExportPost
                      (if strip line =? "" then "passwords.csv" else strip line)
                      (saved_passwords w))
                 (mkWorld rest
                    (trace (log (EvPrint "Export Saved Passwords")
                              (log (EvPrint "") w)) ++
                     [EvInput "Enter filename (example: passwords.csv) or press Enter for default: " line])
                    (saved_passwords w)))).
    { apply world_ok_log.
      - split; [rewrite Hsaved; discriminate | apply Hw].
      - apply (world_ok_after
                 (log (EvPrint "Export Saved Passwords") (log (EvPrint "") w)));
          [repeat constructor | exact Hw2]. }
    unfold log in Hsent. cbn [stdin trace saved_passwords] in Hsent.
    unfold log. cbn [stdin trace saved_passwords].
    match goal with
    | |- context [export_service ?e ?t ?f ?d] =>
        destruct (export_service e t f d)
    end;
      match goal with
      | |- wp ?m _ _ _ => assert (Hrest : keeps m) by keeps_all; apply Hrest
      end; exact Hsent.
Qed.

#[local] Hint Resolve keeps_run_settings keeps_show_settings_required_message
  keeps_run_help_menu keeps_run_export_screen : keeps.

Lemma main_body_keeps s w :
  length_ok (settings_length s) ->
  world_ok w ->
  wp (main_body env s)
     (fun c w' =>
        world_ok w' /\
        match c with
        | Again s' => length_ok (settings_length s')
        | Return _ => True
        end)
     (fun _ w' => world_ok w') w.
Proof.
  destruct s as [[[[[length types_set] ul] uu] ud] us]. cbn [settings_length].
  intros Hlen Hw. unfold main_body.
  apply wp_bind. eapply wp_mono; [apply keeps_run_main_menu, Hw | | auto].
  intros choice w1 Hw1. cbn beta.
  assert (Hthen : forall (m : M unit),
             keeps m ->
             wp (bind m (fun _ => ret (Again (length, types_set, ul, uu, ud, us))))
                (fun (c : ctl settings unit) w' =>
                   world_ok w' /\
                   match c with
                   | Again s' => length_ok (settings_length s')
                   | Return _ => True
                   end)
                (fun _ w' => world_ok w') w1).
  { intros m Hm. apply wp_bind.
    eapply wp_mono; [apply Hm, Hw1 | | auto].
    intros u w2 Hw2. cbn beta in Hw2 |- *. apply wp_ret. auto. }
  destruct (choice =? "1").
  { destruct length as [n|]; [destruct (negb types_set)|]; apply Hthen;
      auto using keeps_run_generate_screen with keeps. }
  destruct (choice =? "2").
  { apply wp_bind.
    eapply wp_mono;
      [apply (wp_conj _ _ _ _ _ _
                (run_settings_ok length types_set ul uu ud us w1 Hlen)
                (keeps_run_settings length types_set ul uu ud us w1 Hw1)) | |];
      cbn beta.
    - intros s' w2 [Hs' Hw2]. apply wp_ret. auto.
    - intros why w2 [_ Hw2]. exact Hw2. }
  destruct (choice =? "3"); [apply Hthen; auto with keeps|].
  destruct (choice =? "4"); [apply Hthen; auto with keeps|].
  destruct (choice =? "5"); [exact Hw1 | apply wp_ret; auto].
Qed.

End KeepsProgram.

(** Any run leaves the world in order. *)
Lemma main_world_ok env lines : world_ok (final (main env (start lines))).
Proof.
  assert (Hstart : world_ok (start lines)) by (repeat split; constructor).
  assert (Hwp : wp (main env) (fun _ w' => world_ok w')
                  (fun _ w' => world_ok w') (start lines)).
  { unfold main. apply wp_bind.
    eapply wp_mono; [apply keeps_show_welcome, Hstart | | auto].
    intros u w1 Hw1. cbn beta in Hw1 |- *. apply wp_bind.
    eapply wp_mono; [apply keeps_run_login_screen, Hw1 | | auto].
    intros logged_in w2 Hw2. cbn beta. apply wp_bind.
    destruct logged_in; cbn [negb];
      [apply wp_ret | unfold wp, exit_program; exact Hw2].
    apply wp_bind. unfold wp at 1, new_saved_passwords.
    apply (wp_while_true_both (main_body env)
             (fun s w => length_ok (settings_length s) /\ world_ok w)).
    - intros s w [Hs Hw].
      eapply wp_mono; [apply (main_body_keeps env s w Hs Hw) | | auto].
      intros [s'|a] w' [Hw' Hs']; auto.
    - intros s w [_ Hw]. exact Hw.
    - split; [exact I|]. destruct Hw2 as [_ [Ht _]].
      repeat split; [constructor | exact Ht | constructor]. }
  unfold wp in Hwp.
  destruct (main env (start lines)) as [[] w'|why w']; exact Hwp.
Qed.

(** X5. In any run, every record in the list of saved passwords is
    consistent: its length lies between 5 and 100, its password has exactly
    that many characters, and each character is of a class that the record
    says was switched on. *)
Theorem saved_records_are_consistent env lines r :
  In r (saved_passwords (final (main env (start lines)))) ->
  record_ok r.
Proof.
  destruct (main_world_ok env lines) as [Hsaved _].
  rewrite Forall_forall in Hsaved. apply Hsaved.
Qed.

Lemma saved_records_are_consistent_witness :
  record_ok (mkRecord "52963" 5 false false true false).
Proof.
  apply (saved_records_are_consistent env_ok script_export).
  vm_compute. left. reflexivity.
Defined.

(** X13. In any run, every request sent to the export service carries at
    least one record, and consistent records only. *)
Theorem exports_carry_records env lines filename data :
  In (EvExportPost filename data) (trace (final (main env (start lines)))) ->
  data <> [] /\ Forall record_ok data.
Proof.
  destruct (main_world_ok env lines) as [_ [Htrace _]].
  rewrite Forall_forall in Htrace. intros Hin. exact (Htrace _ Hin).
Qed.

Lemma exports_carry_records_witness :
  [mkRecord "52963" 5 false false true false] <> [] /\
  Forall record_ok [mkRecord "52963" 5 false false true false].
Proof.
  apply (exports_carry_records env_ok script_export "out.csv").
  vm_compute. repeat (first [left; reflexivity | right]).
Defined.

(** X14. In any run, the password of every saved record has been printed
    on the terminal. *)
Theorem saved_passwords_were_shown env lines r :
  In r (saved_passwords (final (main env (start lines)))) ->
  In (EvPrint (rec_password r)) (trace (final (main env (start lines)))).
Proof.
  destruct (main_world_ok env lines) as [_ [_ Hshown]].
  rewrite Forall_forall in Hshown. apply Hshown.
Qed.

Lemma saved_passwords_were_shown_witness :
  In (EvPrint "52963") (trace (final (main env_ok (start script_export)))).
Proof.
  apply (saved_passwords_were_shown env_ok script_export
           (mkRecord "52963" 5 false false true false)).
  vm_compute. left. reflexivity.
Defined.

(* ================================================================== *)
(** * The export screen with records to export *)





(* ================================================================== *)
(** * The gate of the main menu *)

(** X8. On the choice 1 of the main menu, when the length is not set or
    the types have not been saved, a pass of main's loop only prints the
    reminder and waits for Enter: nothing is generated, saved or sent, and
    the settings are as they were. *)
Theorem generate_needs_settings env s w choice enter rest :
  stdin w = choice :: enter :: rest ->
  strip choice = "1" ->
  settings_length s = None \/ settings_types_set s = false ->
  exists new,
    main_body env s w
    = Returned (Again s)
        (mkWorld rest (trace w ++ new) (saved_passwords w)) /\
    In (EvPrint "Set length and character types first in Edit password settings.")
       new /\
    forallb terminal_only new = true.
Proof.
  intros Hin Hchoice Hunset.
  destruct s as [[[[[length types_set] ul] uu] ud] us].
  destruct w as [lines tr sv]. cbn in Hin, Hunset. subst lines.
  unfold main_body, run_main_menu, show_settings_required_message. run.
  rewrite Hchoice. cbn [String.eqb Ascii.eqb Bool.eqb].
  destruct length as [n|]; [destruct types_set|];
    try (destruct Hunset; congruence); run;
    (eexists; split; [rewrite <- !app_assoc; cbn [app]; reflexivity|];
     split; [cbn; tauto | reflexivity]).
Qed.

Lemma generate_needs_settings_witness :
  exists new,
    main_body env_ok (Some 12, false, true, true, true, false)
      (start ["1"; ""])
    = Returned (Again (Some 12, false, true, true, true, false))
        (mkWorld [] new []).
Proof.
  destruct (generate_needs_settings env_ok
              (Some 12, false, true, true, true, false) (start ["1"; ""])
              "1" "" [] eq_refl eq_refl (or_intror eq_refl))
    as [new [Hpass _]].
  exists new. exact Hpass.
Defined.

(* ================================================================== *)
(** * Settings stay set *)

Lemma stays_set_refl s : stays_set s s.
Proof. split; auto. Qed.

Lemma stays_set_trans s1 s2 s3 :
  stays_set s1 s2 -> stays_set s2 s3 -> stays_set s1 s3.
Proof. intros [H1 H2] [H3 H4]. split; auto. Qed.

Lemma do_set_length_stays current w :
  wp (do_set_length current)
     (fun r _ => current <> None -> r <> None) (fun _ _ => True) w.
Proof.
  unfold do_set_length. cbn beta zeta.
  repeat wp_step; auto; intros _; discriminate.
Qed.

Lemma run_settings_body_stays s w :
  wp (run_settings_body s)
     (fun c _ =>
        match c with
        | Again s' => stays_set s s'
        | Return s' => stays_set s s'
        end)
     (fun _ _ => True) w.
Proof.
  destruct s as [[[[[length types_set] ul] uu] ud] us].
  unfold run_settings_body.
  repeat wp_step; auto using stays_set_refl.
  - eapply wp_mono; [apply do_set_length_stays | | auto].
    intros r w' Hr. cbn beta. apply wp_ret. split; cbn; auto.
  - eapply wp_mono; [apply wp_any | | auto].
    intros [[[l u] d] sy] w' _. cbn beta iota. apply wp_ret. split; cbn; auto.
Qed.

Lemma run_settings_stays length types_set ul uu ud us w :
  wp (run_settings length types_set ul uu ud us)
     (fun s' _ => stays_set (length, types_set, ul, uu, ud, us) s')
     (fun _ _ => True) w.
Proof.
  unfold run_settings.
  apply (wp_while_true_safe run_settings_body
           (fun s => stays_set (length, types_set, ul, uu, ud, us) s)
           (fun s => stays_set (length, types_set, ul, uu, ud, us) s));
    [|apply stays_set_refl].
  intros s w0 Hs.
  eapply wp_mono; [apply run_settings_body_stays | | auto].
  intros [s'|s'] w1 Hs'; eapply stays_set_trans; eauto.
Qed.

Lemma main_body_stays env s w :
  wp (main_body env s)
     (fun c _ => match c with Again s' => stays_set s s' | Return _ => True end)
     (fun _ _ => True) w.
Proof.
  destruct s as [[[[[length types_set] ul] uu] ud] us].
  unfold main_body.
  apply wp_bind. eapply wp_mono; [apply wp_any | | auto].
  intros choice w1 _. cbn beta.
  repeat wp_step; auto using stays_set_refl.
  - destruct length as [n|]; [destruct (negb types_set)|];
      (apply wp_bind; eapply wp_mono; [apply wp_any | | auto];
       intros; apply wp_ret, stays_set_refl).
  - eapply wp_mono; [apply run_settings_stays | | auto].
    intros s' w' Hs'. cbn beta. now apply wp_ret.
  - eapply wp_mono; [apply wp_any | | auto].
    intros; apply wp_ret, stays_set_refl.
  - eapply wp_mono; [apply wp_any | | auto].
    intros; apply wp_ret, stays_set_refl.
Qed.

(** X9. Nothing the user does unsets a setting: from any state of main's
    loop or of the settings loop to any state reached later, a length that
    was set is still set and types that were saved are still marked as
    saved. *)
Theorem settings_stay_set env :
  (forall s0 w0 s w,
      reaches (main_body env) s0 w0 s w -> stays_set s0 s) /\
  (forall s0 w0 s w,
      reaches run_settings_body s0 w0 s w -> stays_set s0 s).
Proof.
  split; intros s0 w0 s w Hreach.
  - refine (reaches_invariant (main_body env) (fun s _ => stays_set s0 s)
              s0 w0 (stays_set_refl s0) _ s w Hreach).
    intros s1 w1 s2 w2 Hs1 Hpass.
    eapply stays_set_trans; [exact Hs1|].
    exact (wp_returned _ _ _ _ _ _ (main_body_stays env s1 w1) Hpass).
  - refine (reaches_invariant run_settings_body (fun s _ => stays_set s0 s)
              s0 w0 (stays_set_refl s0) _ s w Hreach).
    intros s1 w1 s2 w2 Hs1 Hpass.
    eapply stays_set_trans; [exact Hs1|].
    exact (wp_returned _ _ _ _ _ _ (run_settings_body_stays s1 w1) Hpass).
Qed.

Lemma settings_stay_set_witness :
  stays_set (Some 12, true, true, true, true, false)
    (Some 12, true, true, true, true, false).
Proof.
  refine (proj1 (settings_stay_set env_ok) _ (start ["3"; "4"; ""]) _
            (final (main_body env_ok (Some 12, true, true, true, true, false)
                      (start ["3"; "4"; ""]))) _).
  eapply reaches_pass; [apply reaches_entry|].
  vm_compute. reflexivity.
Defined.

(* ================================================================== *)
(** * A visit to the character-types screen *)

Lemma flipped_nil flags : flipped [] flags = flags.
Proof.
  destruct flags as [[[l u] d] s]. cbn. now rewrite !xorb_false_r.
Qed.

Lemma xorb_odd_succ a n :
  xorb a (Nat.odd (Datatypes.S n)) = xorb (negb a) (Nat.odd n).
Proof.
  rewrite Nat.odd_succ, <- Nat.negb_odd.
  now destruct a, (Nat.odd n).
Qed.

Lemma do_character_types_flips ul uu ud us w presses save rest :
  stdin w = (presses ++ save :: rest)%list ->
  Forall (fun line => strip line <> "5") presses ->
  strip save = "5" ->
  wp (do_character_types ul uu ud us)
     (fun flags w' =>
        flags = flipped presses (ul, uu, ud, us) /\
        stdin w' = rest /\
        saved_passwords w' = saved_passwords w)
     (fun _ _ => False) w.
Proof.
  intros Hin Hpresses Hsave. unfold do_character_types.
  apply (wp_while_true do_character_types_body
           (fun flags w' =>
              exists todo,
                stdin w' = (todo ++ save :: rest)%list /\
                Forall (fun line => strip line <> "5") todo /\
                flipped todo flags = flipped presses (ul, uu, ud, us) /\
                saved_passwords w' = saved_passwords w)).
  2: { exists presses. auto. }
  clear Hin Hpresses.
  intros [[[l u] d] s] [lines tr sv] [todo [Hin [Htodo [Hflip Hsv]]]].
  cbn in Hin, Hsv. subst lines.
  unfold wp, do_character_types_body. run.
  destruct todo as [|k todo]; cbn [app]; run.
  - rewrite Hsave. cbn [String.eqb Ascii.eqb Bool.eqb].
    rewrite flipped_nil in Hflip. auto.
  - inversion Htodo as [|k' todo' Hk Htodo']; subst k' todo'.
    assert (Hnext : forall flags',
               flipped todo flags' = flipped (k :: todo) (l, u, d, s) ->
               (exists todo0,
                   (todo ++ save :: rest)%list = (todo0 ++ save :: rest)%list /\
                   Forall (fun line => strip line <> "5") todo0 /\
                   flipped todo0 flags' = flipped presses (ul, uu, ud, us) /\
                   sv = saved_passwords w) /\
               (List.length (todo ++ save :: rest)
                < List.length (k :: todo ++ save :: rest))%nat).
    { intros flags' Hstep. split; [|cbn; lia].
      exists todo. repeat split; auto. congruence. }
    destruct (strip k =? "1") eqn:E1.
    { apply Hnext. apply String.eqb_eq in E1.
      unfold flipped, pressed. cbn [filter]. rewrite E1.
      cbn [String.eqb Ascii.eqb Bool.eqb List.length].
      now rewrite xorb_odd_succ. }
    destruct (strip k =? "2") eqn:E2.
    { apply Hnext. apply String.eqb_eq in E2.
      unfold flipped, pressed. cbn [filter]. rewrite E2.
      cbn [String.eqb Ascii.eqb Bool.eqb List.length].
      now rewrite xorb_odd_succ. }
    destruct (strip k =? "3") eqn:E3.
    { apply Hnext. apply String.eqb_eq in E3.
      unfold flipped, pressed. cbn [filter]. rewrite E3.
      cbn [String.eqb Ascii.eqb Bool.eqb List.length].
      now rewrite xorb_odd_succ. }
    destruct (strip k =? "4") eqn:E4.
    { apply Hnext. apply String.eqb_eq in E4.
      unfold flipped, pressed. cbn [filter]. rewrite E4.
      cbn [String.eqb Ascii.eqb Bool.eqb List.length].
      now rewrite xorb_odd_succ. }
    destruct (strip k =? "5") eqn:E5.
    { apply String.eqb_eq in E5. contradiction. }
    apply Hnext. unfold flipped, pressed. cbn [filter].
    now rewrite E1, E2, E3, E4.
Qed.

(** X10. A visit to the character-types screen: after any lines that are
    not the choice 5 and then the choice 5, [do_character_types] returns the
    flags it was given, each one flipped when its number was chosen an odd
    number of times; lines that are no choice count for nothing, and the
    saved records are untouched. *)
Theorem character_types_by_parity ul uu ud us w presses save rest :
  stdin w = (presses ++ save :: rest)%list ->
  Forall (fun line => strip line <> "5") presses ->
  strip save = "5" ->
  exists w',
    do_character_types ul uu ud us w
    = Returned (flipped presses (ul, uu, ud, us)) w' /\
    stdin w' = rest /\
    saved_passwords w' = saved_passwords w.
Proof.
  intros Hin Hpresses Hsave.
  pose proof (do_character_types_flips ul uu ud us w presses save rest
                Hin Hpresses Hsave) as Hwp.
  unfold wp in Hwp.
  destruct (do_character_types ul uu ud us w) as [flags w'|why w'];
    [|destruct Hwp].
  destruct Hwp as [-> [Hrest Hsaved]]. eauto.
Qed.

Lemma character_types_by_parity_witness :
  exists w',
    do_character_types true true true false
      (start ["4"; "x"; " 1 "; "4"; "4"; "5"; "1"])
    = Returned (false, true, true, true) w' /\
    stdin w' = ["1"].
Proof.
  destruct (character_types_by_parity true true true false
              (start ["4"; "x"; " 1 "; "4"; "4"; "5"; "1"])
              ["4"; "x"; " 1 "; "4"; "4"] "5" ["1"] eq_refl)
    as [w' [Hret [Hrest _]]].
  - repeat constructor; discriminate.
  - reflexivity.
  - exists w'. split; assumption.
Defined.

(** X11. On the choice 2 of the settings screen, followed by a visit to the
    character-types screen that ends with the choice 5, a pass of the
    settings loop goes round again with the types marked as set, the flags
    as the visit left them, and the length as it was. *)
Theorem choosing_types_marks_them_set length types_set ul uu ud us w
  choice presses save rest :
  stdin w = choice :: (presses ++ save :: rest)%list ->
  strip choice = "2" ->
  Forall (fun line => strip line <> "5") presses ->
  strip save = "5" ->
  exists w',
    run_settings_body (length, types_set, ul, uu, ud, us) w
    = Returned
        (Again (let '(l, u, d, s) := flipped presses (ul, uu, ud, us) in
                (length, true, l, u, d, s))) w' /\
    stdin w' = rest /\
    saved_passwords w' = saved_passwords w.
Proof.
  intros Hin Hchoice Hpresses Hsave.
  destruct w as [lines tr sv]. cbn in Hin. subst lines.
  unfold run_settings_body. run. rewrite Hchoice.
  cbn [String.eqb Ascii.eqb Bool.eqb].
  match goal with
  | |- context [do_character_types _ _ _ _ ?w1] =>
      pose proof (do_character_types_flips ul uu ud us w1 presses save rest
                    eq_refl Hpresses Hsave) as Hwp;
      unfold wp in Hwp;
      destruct (do_character_types ul uu ud us w1) as [flags w'|why w'];
      [|destruct Hwp]
  end.
  destruct Hwp as [-> [Hrest Hsaved]].
  destruct (flipped presses (ul, uu, ud, us)) as [[[l u] d] s]. run.
  exists w'. cbn in Hsaved. auto.
Qed.

Lemma choosing_types_marks_them_set_witness :
  exists w',
    run_settings_body (None, false, true, true, true, false)
      (start ["2"; "5"])
    = Returned (Again (None, true, true, true, true, false)) w'.
Proof.
  destruct (choosing_types_marks_them_set None false true true true false
              (start ["2"; "5"]) "2" [] "5" [] eq_refl eq_refl)
    as [w' [Hpass _]].
  - constructor.
  - reflexivity.
  - exists w'. exact Hpass.
Defined.

(* ================================================================== *)
(** * The choices of the generate screen *)



(* ================================================================== *)
(** * Screens that only use the terminal *)

Lemma untouched_refl w : untouched w w.
Proof. split; [reflexivity|]. exists []. now rewrite app_nil_r. Qed.

Lemma untouched_trans w1 w2 w3 :
  untouched w1 w2 -> untouched w2 w3 -> untouched w1 w3.
Proof.
  intros [Hs1 [n1 [Hn1 Hp1]]] [Hs2 [n2 [Hn2 Hp2]]]. split; [congruence|].
  exists (n1 ++ n2)%list. split.
  - rewrite Hn2, Hn1. symmetry. apply app_assoc.
  - rewrite forallb_app, Hp1, Hp2. reflexivity.
Qed.

Lemma quiet_ret {A} (a : A) : quiet (ret a).
Proof. intros w. apply untouched_refl. Qed.

Lemma quiet_bind {A B} (m : M A) (f : A -> M B) :
  quiet m -> (forall a, quiet (f a)) -> quiet (bind m f).
Proof.
  intros Hm Hf w. apply wp_bind.
  eapply wp_mono; [apply Hm | | auto].
  intros a w' Hw'. cbn beta in Hw' |- *.
  eapply wp_mono; [apply Hf | |]; cbn beta; intros;
    eapply untouched_trans; eauto.
Qed.

Lemma quiet_print text : quiet (print text).
Proof.
  intros w. apply wp_print. split; [reflexivity|]. now exists [EvPrint text].
Qed.

Lemma quiet_input prompt : quiet (input prompt).
Proof.
  intros w. apply wp_input.
  - intros _. apply untouched_refl.
  - intros line rest _. split; [reflexivity|].
    now exists [EvInput prompt line].
Qed.

Lemma quiet_input_strip prompt : quiet (input_strip prompt).
Proof.
  unfold input_strip. apply quiet_bind; [apply quiet_input|].
  intros; apply quiet_ret.
Qed.

Lemma quiet_exit_program {A} : quiet (@exit_program A).
Proof. intros w. apply untouched_refl. Qed.

Lemma quiet_raise {A} e : quiet (@raise A e).
Proof. intros w. apply untouched_refl. Qed.

Lemma quiet_py_int s : quiet (py_int s).
Proof.
  unfold py_int. destruct (int s); [apply quiet_ret | apply quiet_raise].
Qed.

Lemma quiet_while_true {S A} (body : S -> M (ctl S A)) s :
  (forall s, quiet (body s)) -> quiet (while_true body s).
Proof.
  intros Hbody w.
  apply (wp_while_true_both body (fun _ w' => untouched w w'));
    [| auto | apply untouched_refl].
  intros s1 w1 Hw1.
  eapply wp_mono; [apply (Hbody s1 w1) | |]; cbn beta.
  - intros [s2|a] w2 Hw2; eapply untouched_trans; eauto.
  - intros why w2 Hw2. eapply untouched_trans; eauto.
Qed.

Create HintDb quiet discriminated.

#[local] Hint Resolve quiet_ret quiet_print quiet_input quiet_input_strip
  quiet_exit_program quiet_raise quiet_py_int : quiet.

Ltac quiet_step :=
  match goal with
  | |- quiet (bind _ _) => apply quiet_bind; [|intros]
  | |- quiet (if ?b then _ else _) => destruct b
  | |- quiet (match ?x with _ => _ end) => destruct x
  | |- quiet _ => solve [auto with quiet]
  end.

Ltac quiet_all := intros; cbv beta zeta; repeat (quiet_step; cbv beta zeta).

Lemma quiet_do_set_length current_length : quiet (do_set_length current_length).
Proof. unfold do_set_length. quiet_all. Qed.

Lemma quiet_do_character_types ul uu ud us :
  quiet (do_character_types ul uu ud us).
Proof.
  apply quiet_while_true. intros [[[l u] d] s].
  unfold do_character_types_body. quiet_all.
Qed.

#[local] Hint Resolve quiet_do_set_length quiet_do_character_types : quiet.

Lemma quiet_run_settings length types_set ul uu ud us :
  quiet (run_settings length types_set ul uu ud us).
Proof.
  apply quiet_while_true. intros [[[[[l t] a] b] c] d].
  unfold run_settings_body. quiet_all.
Qed.

Lemma quiet_run_help_menu : quiet run_help_menu.
Proof.
  apply quiet_while_true. intros s.
  unfold run_help_menu_body, show_quickstart_help, show_length_help,
    show_character_types_help.
  quiet_all.
Qed.

(** X15. The settings screens and the help screens only use the terminal:
    however [run_settings] or [run_help_menu] ends, lines were printed and
    read and nothing else happened (no request to a service, no draw), and
    the saved records are the same. *)
Theorem settings_and_help_are_quiet length types_set ul uu ud us w :
  untouched w (final (run_settings length types_set ul uu ud us w)) /\
  untouched w (final (run_help_menu w)).
Proof.
  split.
  - pose proof (quiet_run_settings length types_set ul uu ud us w) as Hwp.
    unfold wp in Hwp.
    now destruct (run_settings length types_set ul uu ud us w).
  - pose proof (quiet_run_help_menu w) as Hwp. unfold wp in Hwp.
    now destruct (run_help_menu w).
Qed.

(* ================================================================== *)
(** * A length line that is too long *)

(** X16. On a length line that, once stripped, is made of more digits than
    [int] converts, [do_set_length] does not return: the conversion raises a
    ValueError that nothing catches, right after the line is read; the
    length is not updated and the saved records are untouched. *)
Theorem do_set_length_refuses_long_numbers current w line rest :
  stdin w = line :: rest ->
  all_digits (strip line) = true ->
  (max_str_digits < String.length (strip line))%nat ->
  exists w',
    do_set_length current w = Stopped (Uncaught ValueError) w' /\
    stdin w' = rest /\
    saved_passwords w' = saved_passwords w /\
    last (trace w') (EvPrint "") = EvInput (nl ++ "Enter length: ") line.
Proof.
  intros Hin Hdigits Hlong. destruct w as [lines tr sv]. cbn in Hin.
  subst lines.
  unfold do_set_length. run. rewrite is_number_all_digits, Hdigits.
  destruct (strip line =? "") eqn:Hblank.
  { apply String.eqb_eq in Hblank. rewrite Hblank in Hlong. cbn in Hlong. lia. }
  run. unfold int. apply Nat.ltb_lt in Hlong. rewrite Hlong.
  eexists. split; [reflexivity|]. cbn [stdin saved_passwords trace].
  repeat split. apply last_last.
Qed.

Lemma do_set_length_refuses_long_numbers_witness :
  exists w',
    do_set_length (Some 20)
      (start [string_of_list_ascii (repeat "1"%char 4301)])
    = Stopped (Uncaught ValueError) w'.
Proof.
  destruct (do_set_length_refuses_long_numbers (Some 20)
              (start [string_of_list_ascii (repeat "1"%char 4301)])
              (string_of_list_ascii (repeat "1"%char 4301)) [] eq_refl)
    as [w' [Hstop _]].
  - vm_compute. reflexivity.
  - apply Nat.ltb_lt. vm_compute. reflexivity.
  - exists w'. exact Hstop.
Defined.
